(** * kalpavruksha: the [/predict] handler of [backend/app.py]

    A shallow embedding of the request handler [predict] and of the
    aggregation rule it applies to the findings of the two models,
    followed by the properties of the handler. *)

From Stdlib Require Import ZArith List String Bool Lia Permutation.
From Stdlib Require Import Floats.SpecFloat.
Import ListNotations.

Local Open Scope string_scope.
Local Open Scope list_scope.
Local Open Scope Z_scope.

(** ** Python values *)

(** An exception caught by [except Exception as e] is observed only through
    [str(e)], so it is represented by its message. *)
Definition Exn := string.
Definition result (A : Type) : Type := (Exn + A)%type.

Definition IndexError_list : Exn := "list index out of range".
Definition ValueError_nan : Exn := "cannot convert float NaN to integer".
Definition OverflowError_inf : Exn := "cannot convert float infinity to integer".
Definition ValueError_max : Exn := "max() arg is an empty sequence".
Definition AttributeError_top5 : Exn :=
  "'NoneType' object has no attribute 'top5'".

(** A Python [float] is an IEEE 754 binary64 value. *)
Definition float : Type := spec_float.

Module PyFloat.

Definition is_nan (x : float) : bool :=
  match x with S754_nan => true | _ => false end.

(** [a > b] and [a <= b] of Python. *)
Definition gt (a b : float) : bool := SFltb b a.
Definition le (a b : float) : bool := SFleb a b.

(** The literals [0.1] and [0.5]. *)
Definition lit_0_1 : float := S754_finite false 7205759403792794 (-56).
Definition lit_0_5 : float := S754_finite false 4503599627370496 (-53).

(** [int(x)]: truncation towards zero; NaN and the infinities raise. *)
Definition to_int (x : float) : result Z :=
  match x with
  | S754_zero _ => inr 0
  | S754_nan => inl ValueError_nan
  | S754_infinity _ => inl OverflowError_inf
  | S754_finite s m e =>
      let a := if 0 <=? e then Z.pos m * 2 ^ e else Z.pos m / 2 ^ (- e) in
      inr (if s then - a else a)
  end.

End PyFloat.

(** [l[i]] on a Python list: a negative index counts from the end, an
    index out of range raises [IndexError]. *)
Definition py_getitem {A : Type} (l : list A) (i : Z) : result A :=
  let n := Z.of_nat (List.length l) in
  let j := if i <? 0 then i + n else i in
  if (0 <=? j) && (j <? n) then
    match nth_error l (Z.to_nat j) with
    | Some x => inr x
    | None => inl IndexError_list
    end
  else inl IndexError_list.

(** ** Class names *)

Definition class_names_1 : list string :=
  ["bud root dropping"; "bud rot"; "gray leaf spot"; "leaf rot"; "stembleeding"].
Definition class_names_2 : list string :=
  ["caterpillars"; "drying"; "flaccidity"; "healthy"; "leaflet"; "yellowing"].

(** ** Findings and the aggregate result *)

(** One entry of [all_detections]: the dictionary with the keys
    ['class'], ['confidence'] and ['model']. *)
Record Finding : Type := mkFinding {
  d_class : string;
  d_confidence : float;
  d_model : string
}.

Record AggregateResult : Type := mkAggregate {
  prediction : string;
  confidence : float;
  all_detections : list Finding;
  total_diseases : Z
}.

(** [max(l, key=lambda x: x['confidence'])]: the running maximum is replaced
    only by an item whose key is strictly greater. *)
Fixpoint max_from (best : Finding) (l : list Finding) : Finding :=
  match l with
  | [] => best
  | d :: rest =>
      if PyFloat.gt (d_confidence d) (d_confidence best)
      then max_from d rest
      else max_from best rest
  end.

Definition py_max (l : list Finding) : result Finding :=
  match l with
  | [] => inl ValueError_max
  | d :: rest => inr (max_from d rest)
  end.

Definition is_healthy (d : Finding) : bool := String.eqb (d_class d) "healthy".

(** [[d for d in all_detections if d['class'] != 'healthy']] *)
Definition non_healthy (all : list Finding) : list Finding :=
  filter (fun d => negb (is_healthy d)) all.

(** The tail of [predict], from the computation of [non_healthy] to the
    dictionary handed to [jsonify]. *)
Definition aggregate (all : list Finding) : result AggregateResult :=
  let nh := non_healthy all in
  match nh with
  | _ :: _ =>
      match py_max nh with
      | inl e => inl e
      | inr best_detection =>
          inr {| prediction := d_class best_detection;
                 confidence := d_confidence best_detection;
                 all_detections := all;
                 total_diseases := Z.of_nat (List.length nh) |}
      end
  | [] =>
      match all with
      | _ :: _ =>
          match py_max all with
          | inl e => inl e
          | inr best_detection =>
              inr {| prediction := "healthy";
                     confidence := d_confidence best_detection;
                     all_detections := all;
                     total_diseases := 0 |}
          end
      | [] =>
          inr {| prediction := "healthy";
                 confidence := PyFloat.lit_0_5;
                 all_detections := [];
                 total_diseases := 0 |}
      end
  end.

(** ** The models' outputs *)

(** One row of [results[0].boxes]: [boxes.conf[i]] and [boxes.cls[i]], the
    class index being stored as a float. *)
Record Box : Type := mkBox {
  conf : float;
  cls : float
}.

(** [results[0].probs]: the indices of the five highest-ranked classes and
    their probabilities. *)
Record Probs : Type := mkProbs {
  top5 : list Z;
  top5conf : list float
}.

Record Results : Type := mkResults {
  boxes : option (list Box);
  probs : option Probs
}.

(** ** Exceptions and calls to the outside *)

Inductive Event : Type :=
  | Image_open
  | model1_predict
  | model2_predict.

(** A computation inside the [try] block: the calls it made, and either
    the exception that ended it or its value. *)
Definition M (A : Type) : Type := (list Event * result A)%type.

Definition ret {A : Type} (a : A) : M A := ([], inr a).

Definition lift {A : Type} (r : result A) : M A := ([], r).

Definition call {A : Type} (ev : Event) (r : result A) : M A := ([ev], r).

Definition bind {A B : Type} (m : M A) (f : A -> M B) : M B :=
  match m with
  | (t, inl e) => (t, inl e)
  | (t, inr a) => let (t', r) := f a in (t ++ t', r)
  end.

Notation "x <- m ;; k" := (bind m (fun x => k))
  (at level 61, m at next level, right associativity).

(** ** The two loops that fill [all_detections] *)

(** [for i in range(len(boxes1)): ...], appending to [all_detections]. *)
Fixpoint detection_loop (boxes1 : list Box) (all : list Finding)
  : result (list Finding) :=
  match boxes1 with
  | [] => inr all
  | b :: rest =>
      match PyFloat.to_int (cls b) with
      | inl e => inl e
      | inr cls_index =>
          match py_getitem class_names_1 cls_index with
          | inl e => inl e
          | inr name =>
              detection_loop rest
                (all ++ [ {| d_class := name;
                             d_confidence := conf b;
                             d_model := "detection" |} ])
          end
      end
  end.

(** [for idx, conf in zip(top5_indices, top5_conf): ...]. *)
Fixpoint classification_loop (pairs : list (Z * float)) (all : list Finding)
  : result (list Finding) :=
  match pairs with
  | [] => inr all
  | (cls_index, confidence) :: rest =>
      match py_getitem class_names_2 cls_index with
      | inl e => inl e
      | inr disease =>
          if PyFloat.gt confidence PyFloat.lit_0_1
          then classification_loop rest
                 (all ++ [ {| d_class := disease;
                              d_confidence := confidence;
                              d_model := "classification" |} ])
          else classification_loop rest all
      end
  end.

(** [if results1 and results1[0].boxes and len(results1[0].boxes) > 0]:
    an empty list, [None] and a [Boxes] object of length 0 are all false. *)
Definition detection_rows (results1 : list Results) : list Box :=
  match results1 with
  | [] => []
  | r0 :: _ =>
      match boxes r0 with
      | None => []
      | Some boxes1 =>
          if negb (Nat.eqb (List.length boxes1) 0)
             && (0 <? Z.of_nat (List.length boxes1))
          then boxes1 else []
      end
  end.

(** [if results2 and hasattr(results2[0], 'probs')]: a [Results] object
    always has the attribute, and [probs.top5] on [None] raises. *)
Definition classification_pairs (results2 : list Results)
  : result (list (Z * float)) :=
  match results2 with
  | [] => inr []
  | r0 :: _ =>
      match probs r0 with
      | None => inl AttributeError_top5
      | Some p => inr (combine (top5 p) (top5conf p))
      end
  end.

(** ** The request and the response *)

Record FileStorage : Type := mkFile {
  filename : string;
  stream : list Byte.byte
}.

(** [request.files]: the uploaded files by form field, in the order of the
    form; [request.files[k]] is the first file of field [k]. *)
Record Request : Type := mkRequest {
  files : list (string * FileStorage)
}.

Fixpoint files_get (fs : list (string * FileStorage)) (k : string)
  : option FileStorage :=
  match fs with
  | [] => None
  | (k', f) :: rest => if String.eqb k' k then Some f else files_get rest k
  end.

Inductive Json : Type :=
  | JError (error : string)
  | JResult (r : AggregateResult).

Record Response : Type := mkResponse {
  body : Json;
  status : Z
}.

Section Handler.

(** The decoded image and [Image.open(io.BytesIO(b)).convert('RGB')]. *)
Variable Image : Type.
Variable open_rgb : list Byte.byte -> result Image.

(** A loaded model: [model.predict(image, verbose=False)]. *)
Record YOLO : Type := mkYOLO {
  yolo_predict : Image -> result (list Results)
}.

(** The module's globals after the two [try]/[except] blocks. *)
Record Globals : Type := mkGlobals {
  model1 : option YOLO;
  model1_type : option string;
  model2 : option YOLO;
  model2_type : option string
}.

(** Model loading: a model that fails to load leaves [None] in both of
    its globals. *)
Definition load_models (y1 y2 : result YOLO) : Globals :=
  {| model1 := match y1 with inr m => Some m | inl _ => None end;
     model1_type := match y1 with inr _ => Some "detection" | inl _ => None end;
     model2 := match y2 with inr m => Some m | inl _ => None end;
     model2_type := match y2 with inr _ => Some "classify" | inl _ => None end |}.

Definition type_is (t : option string) (s : string) : bool :=
  match t with
  | Some t' => String.eqb t' s
  | None => false
  end.

(** Lines 81 to 94. *)
Definition run_model1 (g : Globals) (image : Image) (all : list Finding)
  : M (list Finding) :=
  match model1 g with
  | Some m =>
      if type_is (model1_type g) "detection" then
        results1 <- call model1_predict (yolo_predict m image) ;;
        lift (detection_loop (detection_rows results1) all)
      else ret all
  | None => ret all
  end.

(** Lines 96 to 117. *)
Definition run_model2 (g : Globals) (image : Image) (all : list Finding)
  : M (list Finding) :=
  match model2 g with
  | Some m =>
      if type_is (model2_type g) "classify" then
        results2 <- call model2_predict (yolo_predict m image) ;;
        pairs <- lift (classification_pairs results2) ;;
        lift (classification_loop pairs all)
      else ret all
  | None => ret all
  end.

(** The body of the [try] block: [file.read()], the decoding, the two
    models and the aggregation. The [print] calls write to the terminal
    only and are left out. *)
Definition predict_try (g : Globals) (file : FileStorage) : M Response :=
  let img_bytes := stream file in
  image <- call Image_open (open_rgb img_bytes) ;;
  all1 <- run_model1 g image [] ;;
  all2 <- run_model2 g image all1 ;;
  r <- lift (aggregate all2) ;;
  ret {| body := JResult r; status := 200 |}.

Definition is_None {A : Type} (o : option A) : bool :=
  match o with None => true | Some _ => false end.

(** The handler of [POST /predict]: the calls made and the response. *)
Definition predict (g : Globals) (request : Request)
  : list Event * Response :=
  if is_None (model1 g) && is_None (model2 g) then
    ([], {| body := JError "Models not loaded"; status := 500 |})
  else
    match files_get (files request) "file" with
    | None => ([], {| body := JError "No file part"; status := 400 |})
    | Some file =>
        if String.eqb (filename file) "" then
          ([], {| body := JError "No selected file"; status := 400 |})
        else
          match predict_try g file with
          | (t, inr response) => (t, response)
          | (t, inl e) => (t, {| body := JError e; status := 500 |})
          end
    end.

(** What the classification model may answer: [top5] never holds more
    than five indices. *)
Definition top5_contract (g : Globals) : Prop :=
  forall m image r0 rs p,
    model2 g = Some m ->
    yolo_predict m image = inr (r0 :: rs) ->
    probs r0 = Some p ->
    (List.length (top5 p) <= 5)%nat.

End Handler.

Arguments yolo_predict {Image} _ _.
Arguments model1 {Image} _.
Arguments model1_type {Image} _.
Arguments model2 {Image} _.
Arguments model2_type {Image} _.
Arguments mkYOLO {Image} _.
Arguments mkGlobals {Image} _ _ _ _.
Arguments load_models {Image} _ _.
Arguments run_model1 {Image} _ _ _.
Arguments run_model2 {Image} _ _ _.
Arguments predict_try {Image} _ _ _.
Arguments predict {Image} _ _ _.
Arguments top5_contract {Image} _.

(** ** The vocabulary of the properties *)

Definition no_nan (l : list Finding) : Prop :=
  Forall (fun d => PyFloat.is_nan (d_confidence d) = false) l.

(** [d] is a disease finding: its class is not ["healthy"]. *)
Definition diseased (d : Finding) : Prop := d_class d <> "healthy".

(** [x] is strictly below [y], and [x] is at most [y], by confidence. *)
Definition below (y x : Finding) : Prop :=
  PyFloat.gt (d_confidence y) (d_confidence x) = true.
Definition at_most (y x : Finding) : Prop :=
  PyFloat.le (d_confidence x) (d_confidence y) = true.

(** The number of disease findings of a list, by recursion on the list. *)
Fixpoint count_diseased (l : list Finding) : Z :=
  match l with
  | [] => 0
  | d :: rest =>
      if string_dec (d_class d) "healthy"
      then count_diseased rest
      else 1 + count_diseased rest
  end.

(** The number of findings of a list that come from the detection model. *)
Fixpoint count_detection (l : list Finding) : Z :=
  match l with
  | [] => 0
  | d :: rest =>
      if string_dec (d_model d) "detection"
      then 1 + count_detection rest
      else count_detection rest
  end.

Definition detection_finding (d : Finding) : Prop :=
  d_model d = "detection" /\ In (d_class d) class_names_1.

Definition classification_finding (d : Finding) : Prop :=
  d_model d = "classification" /\
  In (d_class d) class_names_2 /\
  PyFloat.gt (d_confidence d) PyFloat.lit_0_1 = true.

(** The number of findings of a list that come from the classification
    model. *)
Fixpoint count_classification (l : list Finding) : Z :=
  match l with
  | [] => 0
  | d :: rest =>
      if string_dec (d_model d) "classification"
      then 1 + count_classification rest
      else count_classification rest
  end.


(** ** Concrete inputs *)

(** The scenarios of the specification. *)
Definition f_0_8 : float := S754_finite false 7205759403792794 (-53).
Definition f_0_9 : float := S754_finite false 8106479329266893 (-53).
Definition f_0_95 : float := S754_finite false 8556839292003942 (-53).
Definition f_0_05 : float := S754_finite false 7205759403792794 (-57).

Definition bud_rot_08 : Finding :=
  {| d_class := "bud rot"; d_confidence := f_0_8; d_model := "detection" |}.
Definition leaf_rot_09 : Finding :=
  {| d_class := "leaf rot"; d_confidence := f_0_9; d_model := "detection" |}.
Definition drying_09 : Finding :=
  {| d_class := "drying"; d_confidence := f_0_9; d_model := "classification" |}.
Definition healthy_09 : Finding :=
  {| d_class := "healthy"; d_confidence := f_0_9; d_model := "classification" |}.
Definition healthy_095 : Finding :=
  {| d_class := "healthy"; d_confidence := f_0_95; d_model := "classification" |}.

Definition f_1 : float := S754_finite false 4503599627370496 (-52).
Definition f_0 : float := S754_zero false.

Definition open_ok : list Byte.byte -> result unit := fun _ => inr tt.

Definition fixed_model (rs : list Results) : YOLO unit :=
  mkYOLO (fun _ => inr rs).

Definition results_bud_rot : list Results :=
  [ {| boxes := Some [ {| conf := f_0_8; cls := f_1 |} ]; probs := None |} ].

Definition results_no_boxes : list Results :=
  [ {| boxes := Some []; probs := None |} ].

Definition results_healthy_09 : list Results :=
  [ {| boxes := None;
       probs := Some {| top5 := [3; 1; 0; 2; 4];
                        top5conf := [f_0_9; f_0_05; f_0_05; f_0; f_0] |} |} ].

Definition results_healthy_095 : list Results :=
  [ {| boxes := None;
       probs := Some {| top5 := [3; 1; 0; 2; 4];
                        top5conf := [f_0_95; f_0_05; f_0; f_0; f_0] |} |} ].

Definition results_flat : list Results :=
  [ {| boxes := None;
       probs := Some {| top5 := [3; 1; 0; 2; 4];
                        top5conf := [f_0_05; f_0_05; f_0_05; f_0_05; f_0_05] |} |} ].

Definition g_both : Globals unit :=
  load_models (inr (fixed_model results_bud_rot))
              (inr (fixed_model results_healthy_09)).

Definition g_none : Globals unit :=
  load_models (inl "No such file or directory: 'bestcoconutdisease.pt'")
              (inl "No such file or directory: 'best.pt'").

Definition request_leaf : Request :=
  {| files := [("file", {| filename := "leaf.jpg"; stream := [] |})] |}.

Definition request_unnamed : Request :=
  {| files := [("file", {| filename := ""; stream := [] |})] |}.

Definition request_no_file : Request :=
  {| files := [("image", {| filename := "leaf.jpg"; stream := [] |})] |}.

Definition result_bud_rot : AggregateResult :=
  {| prediction := "bud rot";
     confidence := f_0_8;
     all_detections := [bud_rot_08; healthy_09];
     total_diseases := 1 |}.

Definition ok (r : AggregateResult) : Response :=
  {| body := JResult r; status := 200 |}.

(** The dictionary of lines 149 to 154. *)
Definition result_no_findings : AggregateResult :=
  {| prediction := "healthy";
     confidence := PyFloat.lit_0_5;
     all_detections := [];
     total_diseases := 0 |}.

Definition g_nothing : Globals unit :=
  load_models (inr (fixed_model results_no_boxes))
              (inr (fixed_model results_flat)).

Definition nan_first : list Finding :=
  [ {| d_class := "bud rot"; d_confidence := S754_nan; d_model := "detection" |};
    leaf_rot_09 ].

(** ** The handler seen by stages *)

Definition error (e : string) (code : Z) : Response :=
  {| body := JError e; status := code |}.

(** The response of the handler once the [try] block has run: the
    [except] clause turns an exception into a 500 that carries its message. *)
Definition try_response (x : M Response) : list Event * Response :=
  match x with
  | (t, inr response) => (t, response)
  | (t, inl e) => (t, error e 500)
  end.

(** At least one of the two models is loaded. *)
Definition loaded {Image : Type} (g : Globals Image) : Prop :=
  model1 g <> None \/ model2 g <> None.

(** The class of the box converts to an integer that indexes
    [class_names_1], from the front or from the end. *)
Definition box_index_ok (b : Box) : Prop :=
  exists i, PyFloat.to_int (cls b) = inr i /\ -5 <= i < 5.

(** The index of the pair indexes [class_names_2]. *)
Definition pair_index_ok (p : Z * float) : Prop := -6 <= fst p < 6.

(** The test [confidence > 0.1]. *)
Definition above_floor (c : float) : bool := PyFloat.gt c PyFloat.lit_0_1.


(** ** More concrete inputs *)


Definition open_fail : list Byte.byte -> result unit :=
  fun _ => inl "cannot identify image file".


Definition results_no_probs : list Results :=
  [ {| boxes := None; probs := None |} ].


Definition g_bad_classification : Globals unit :=
  load_models (inr (fixed_model results_bud_rot))
              (inr (fixed_model results_no_probs)).

Definition g_detection_only : Globals unit :=
  load_models (inr (fixed_model results_bud_rot))
              (inl "No such file or directory: 'best.pt'").

Definition g_classification_only : Globals unit :=
  load_models (inl "No such file or directory: 'bestcoconutdisease.pt'")
              (inr (fixed_model results_healthy_09)).

Definition results_bad_class : list Results :=
  [ {| boxes := None;
       probs := Some {| top5 := [3; 7]; top5conf := [f_0_9; f_0_05] |} |} ].

Definition g_bad_class : Globals unit :=
  load_models (inr (fixed_model results_bud_rot))
              (inr (fixed_model results_bad_class)).

Definition g_raising : Globals unit :=
  load_models (inr (mkYOLO (fun _ : unit => inl "CUDA out of memory")))
              (inr (fixed_model results_healthy_09)).

Definition y_missing : result (YOLO unit) :=
  inl "No such file or directory: 'bestcoconutdisease.pt'".

Definition y_classifier : result (YOLO unit) :=
  inr (fixed_model results_healthy_09).

(** The findings among which the aggregation takes its maximum: the
    disease findings when there are some, all the findings otherwise. *)
Definition candidates (all : list Finding) : list Finding :=
  match non_healthy all with
  | [] => all
  | _ :: _ => non_healthy all
  end.


Definition file_leaf : FileStorage := {| filename := "leaf.jpg"; stream := [] |}.

(** ** Proof support *)

Ltac split_compare :=
  repeat match goal with
  | |- context [Pos.compare_cont Eq ?a ?b] =>
      change (Pos.compare_cont Eq a b) with (Pos.compare a b)
  | H : context [Pos.compare_cont Eq ?a ?b] |- _ =>
      change (Pos.compare_cont Eq a b) with (Pos.compare a b) in H
  end;
  repeat match goal with
  | H : context [Z.compare ?a ?b] |- _ =>
      destruct (Z.compare_spec a b); subst; simpl in H
  | |- context [Z.compare ?a ?b] =>
      destruct (Z.compare_spec a b); subst; simpl
  | H : context [Pos.compare ?a ?b] |- _ =>
      destruct (Pos.compare_spec a b); subst; simpl in H
  | |- context [Pos.compare ?a ?b] =>
      destruct (Pos.compare_spec a b); subst; simpl
  end;
  simpl in *; try reflexivity; try congruence; try lia.

Ltac by_cases3 a b c :=
  destruct a as [[|]|[|]| |[|] ? ?]; simpl; try congruence;
  destruct b as [[|]|[|]| |[|] ? ?]; simpl; try congruence;
  destruct c as [[|]|[|]| |[|] ? ?]; simpl; try congruence;
  intros; split_compare.

(** * Properties *)

(** ** The order of floats *)

Module PyFloatFacts.
Import PyFloat.


Lemma gt_false_le (a b : float) :
  is_nan a = false -> is_nan b = false -> gt a b = false -> le a b = true.
Proof.
  unfold gt, le, SFltb, SFleb, SFcompare.
  destruct a as [[|]|[|]| |[|] ? ?]; simpl; try congruence;
  destruct b as [[|]|[|]| |[|] ? ?]; simpl; try congruence;
  intros; split_compare.
Qed.

Lemma gt_le (a b : float) : gt a b = true -> le b a = true.
Proof.
  unfold gt, le, SFltb, SFleb. destruct (SFcompare b a) as [[| |]|]; congruence.
Qed.

Lemma le_refl (a : float) : is_nan a = false -> le a a = true.
Proof.
  unfold le, SFleb, SFcompare.
  destruct a as [[|]|[|]| |[|] ? ?]; simpl; try congruence; intros;
    rewrite Z.compare_refl;
    change (Pos.compare_cont Eq m m) with (Pos.compare m m);
    rewrite Pos.compare_refl; reflexivity.
Qed.

Lemma le_trans (a b c : float) :
  le a b = true -> le b c = true -> le a c = true.
Proof.
  unfold le, SFleb, SFcompare. by_cases3 a b c.
Qed.

Lemma le_gt_trans (a b c : float) :
  le a b = true -> gt c b = true -> gt c a = true.
Proof.
  unfold gt, le, SFltb, SFleb, SFcompare. by_cases3 a b c.
Qed.

Lemma gt_irrefl_le (a b : float) : le a b = true -> gt a b = false.
Proof.
  unfold gt, le, SFltb, SFleb, SFcompare.
  destruct a as [[|]|[|]| |[|] ? ?]; simpl; try congruence;
  destruct b as [[|]|[|]| |[|] ? ?]; simpl; try congruence;
  intros; split_compare.
Qed.

Lemma le_not_nan (a b : float) :
  le a b = true -> is_nan a = false /\ is_nan b = false.
Proof.
  unfold le, SFleb, SFcompare.
  destruct a as [[|]|[|]| |[|] ? ?]; simpl; try congruence;
  destruct b as [[|]|[|]| |[|] ? ?]; simpl; try congruence; auto.
Qed.

End PyFloatFacts.

(** ** Python's [max] *)

Section MaxFacts.
Import PyFloat PyFloatFacts.

Lemma below_at_most (y x : Finding) : below y x -> at_most y x.
Proof. apply gt_le. Qed.

Lemma at_most_below (x y z : Finding) : at_most y x -> below z y -> below z x.
Proof. apply le_gt_trans. Qed.

Lemma below_not_at_most (x y : Finding) : below y x -> at_most x y -> False.
Proof.
  unfold below, at_most. intros Hb Ha.
  apply gt_irrefl_le in Ha. congruence.
Qed.

(** The loop invariant of [max]: the items seen before the running
    maximum are strictly below it, the items seen after it are at most
    equal to it. *)
Lemma max_from_split (l : list Finding) :
  forall (b : Finding) (pre mid : list Finding),
    no_nan (b :: l) ->
    Forall (below b) pre ->
    Forall (at_most b) mid ->
    exists pre' post',
      pre ++ b :: mid ++ l = pre' ++ max_from b l :: post' /\
      Forall (below (max_from b l)) pre' /\
      Forall (at_most (max_from b l)) post'.
Proof.
  induction l as [|d l IH]; intros b pre mid Hnan Hpre Hmid; simpl.
  - exists pre, mid. rewrite app_nil_r. auto.
  - assert (Hb : is_nan (d_confidence b) = false) by (inversion Hnan; auto).
    assert (Hd : is_nan (d_confidence d) = false).
    { inversion Hnan as [|? ? _ Hl]; inversion Hl; auto. }
    assert (Hl : no_nan l).
    { inversion Hnan as [|? ? _ Hl]; inversion Hl; auto. }
    destruct (gt (d_confidence d) (d_confidence b)) eqn:Hgt.
    + destruct (IH d (pre ++ b :: mid) []) as (pre' & post' & Heq & H1 & H2).
      * constructor; auto.
      * apply Forall_app; split.
        -- eapply Forall_impl; [|exact Hpre]. intros x Hx.
           apply (at_most_below x b d); [apply below_at_most; exact Hx|exact Hgt].
        -- constructor; [exact Hgt|].
           eapply Forall_impl; [|exact Hmid]. intros x Hx.
           apply (at_most_below x b d); [exact Hx|exact Hgt].
      * constructor.
      * exists pre', post'. split; [|auto].
        rewrite <- Heq. rewrite <- app_assoc. reflexivity.
    + destruct (IH b pre (mid ++ [d])) as (pre' & post' & Heq & H1 & H2).
      * constructor; auto.
      * exact Hpre.
      * apply Forall_app; split; [exact Hmid|].
        constructor; [|constructor].
        apply gt_false_le; assumption.
      * exists pre', post'. split; [|auto].
        rewrite <- Heq. rewrite <- app_assoc. reflexivity.
Qed.

Lemma py_max_first_max (b : Finding) (l : list Finding) :
  no_nan (b :: l) ->
  exists best pre post,
    py_max (b :: l) = inr best /\
    b :: l = pre ++ best :: post /\
    Forall (below best) pre /\
    Forall (at_most best) post.
Proof.
  intros Hnan.
  destruct (max_from_split l b [] [] Hnan) as (pre & post & Heq & H1 & H2);
    [constructor|constructor|].
  exists (max_from b l), pre, post. simpl in *. auto.
Qed.

Lemma max_from_In (l : list Finding) :
  forall b, In (max_from b l) (b :: l).
Proof.
  induction l as [|d l IH]; intros b; simpl; [auto|].
  destruct (gt (d_confidence d) (d_confidence b)).
  - right. apply IH.
  - destruct (IH b) as [H|H]; [left; exact H|right; right; exact H].
Qed.

End MaxFacts.

(** ** The list comprehension [non_healthy] *)

Lemma diseased_iff (d : Finding) : negb (is_healthy d) = true <-> diseased d.
Proof.
  unfold is_healthy, diseased. rewrite negb_true_iff. apply String.eqb_neq.
Qed.

Lemma non_healthy_In (all : list Finding) (d : Finding) :
  In d (non_healthy all) <-> In d all /\ diseased d.
Proof.
  unfold non_healthy. rewrite filter_In, diseased_iff. reflexivity.
Qed.

Lemma non_healthy_count (all : list Finding) :
  Z.of_nat (List.length (non_healthy all)) = count_diseased all.
Proof.
  unfold non_healthy.
  induction all as [|d all IH]; [reflexivity|].
  cbn [filter count_diseased]. unfold is_healthy at 1.
  destruct (string_dec (d_class d) "healthy") as [E|E].
  - apply String.eqb_eq in E. rewrite E. cbn [negb]. exact IH.
  - apply String.eqb_neq in E. rewrite E. cbn [negb List.length].
    rewrite Nat2Z.inj_succ, IH. lia.
Qed.

(** A split of the filtered list comes from a split of the list. *)
Lemma non_healthy_split (all : list Finding) :
  forall pre' x post',
    non_healthy all = pre' ++ x :: post' ->
    exists pre post,
      all = pre ++ x :: post /\
      non_healthy pre = pre' /\ non_healthy post = post'.
Proof.
  induction all as [|d all IH]; intros pre' x post' H; simpl in H.
  - destruct pre'; discriminate.
  - destruct (negb (is_healthy d)) eqn:Ed.
    + destruct pre' as [|y pre']; simpl in H; injection H as Hd Hrest.
      * exists [], all. rewrite Hd. auto.
      * destruct (IH _ _ _ Hrest) as (pre & post & -> & H3 & H4).
        exists (d :: pre), post. simpl. rewrite Ed, H3, Hd. auto.
    + destruct (IH _ _ _ H) as (pre & post & -> & H3 & H4).
      exists (d :: pre), post. simpl. rewrite Ed. auto.
Qed.

Lemma non_healthy_nil (all : list Finding) :
  non_healthy all = [] <-> (forall d, In d all -> d_class d = "healthy").
Proof.
  split.
  - intros H d Hd. destruct (string_dec (d_class d) "healthy") as [E|E]; [exact E|].
    assert (Hin : In d (non_healthy all)) by (apply non_healthy_In; auto).
    rewrite H in Hin. destruct Hin.
  - intros H. destruct (non_healthy all) as [|d l] eqn:E; [reflexivity|].
    assert (Hin : In d (non_healthy all)) by (rewrite E; left; reflexivity).
    apply non_healthy_In in Hin. destruct Hin as [Hin Hd].
    exfalso. apply Hd, H, Hin.
Qed.

(** ** The aggregation *)

Section AggregateFacts.
Import PyFloat PyFloatFacts.

(** The first branch: the answer is the first disease finding of the
    list, in list order, that no other disease finding exceeds. *)
Lemma aggregate_diseased (all : list Finding) :
  no_nan (non_healthy all) ->
  non_healthy all <> [] ->
  exists pre best post,
    all = pre ++ best :: post /\
    diseased best /\
    (forall d, In d pre -> diseased d -> below best d) /\
    (forall d, In d post -> diseased d -> at_most best d) /\
    aggregate all =
      inr {| prediction := d_class best;
             confidence := d_confidence best;
             all_detections := all;
             total_diseases := count_diseased all |}.
Proof.
  intros Hnan Hne.
  destruct (non_healthy all) as [|b l] eqn:E; [congruence|].
  destruct (py_max_first_max b l Hnan)
    as (best & pre' & post' & Hmax & Hsplit & Hpre & Hpost).
  rewrite <- E in Hsplit.
  destruct (non_healthy_split all _ _ _ Hsplit) as (pre & post & Hall & Hp & Hq).
  exists pre, best, post.
  assert (Hbest : In best (non_healthy all)).
  { rewrite Hsplit. apply in_or_app. right. left. reflexivity. }
  apply non_healthy_In in Hbest. destruct Hbest as [_ Hbest].
  repeat split; try assumption.
  - intros d Hd Hdis. rewrite Forall_forall in Hpre. apply Hpre.
    rewrite <- Hp. apply non_healthy_In. auto.
  - intros d Hd Hdis. rewrite Forall_forall in Hpost. apply Hpost.
    rewrite <- Hq. apply non_healthy_In. auto.
  - unfold aggregate. cbv zeta. rewrite <- non_healthy_count, E.
    simpl in Hmax. injection Hmax as Hmax. simpl py_max. rewrite Hmax.
    reflexivity.
Qed.

Lemma no_nan_non_healthy (all : list Finding) :
  no_nan all -> no_nan (non_healthy all).
Proof.
  unfold no_nan. rewrite !Forall_forall. intros H d Hd.
  apply H. apply non_healthy_In in Hd. tauto.
Qed.

Lemma no_nan_at_most_refl (all : list Finding) (d : Finding) :
  no_nan all -> In d all -> at_most d d.
Proof.
  unfold no_nan. rewrite Forall_forall. intros H Hd.
  apply le_refl, H, Hd.
Qed.

(** The second branch. *)
Lemma aggregate_healthy (all : list Finding) :
  no_nan all ->
  all <> [] ->
  non_healthy all = [] ->
  exists best,
    In best all /\
    (forall d, In d all -> at_most best d) /\
    aggregate all =
      inr {| prediction := "healthy";
             confidence := d_confidence best;
             all_detections := all;
             total_diseases := 0 |}.
Proof.
  intros Hnan Hne Hnh.
  destruct all as [|b l]; [congruence|].
  destruct (py_max_first_max b l Hnan)
    as (best & pre & post & Hmax & Hsplit & Hpre & Hpost).
  exists best. split; [|split].
  - rewrite Hsplit. apply in_or_app. right. left. reflexivity.
  - intros d Hd. rewrite Hsplit in Hd.
    apply in_app_or in Hd. destruct Hd as [Hd|[Hd|Hd]].
    + apply below_at_most. rewrite Forall_forall in Hpre. apply Hpre, Hd.
    + subst d. apply (no_nan_at_most_refl (b :: l)); [exact Hnan|].
      rewrite Hsplit. apply in_or_app. right. left. reflexivity.
    + rewrite Forall_forall in Hpost. apply Hpost, Hd.
  - unfold aggregate. cbv zeta. rewrite Hnh.
    simpl in Hmax. injection Hmax as Hmax. simpl py_max. rewrite Hmax.
    reflexivity.
Qed.

(** The aggregation never raises, and hands the list on as it got it. *)
Lemma aggregate_total (all : list Finding) :
  exists r, aggregate all = inr r /\ all_detections r = all.
Proof.
  unfold aggregate. cbv zeta.
  destruct (non_healthy all) as [|b l]; [destruct all as [|c k]|];
    simpl; eexists; split; reflexivity.
Qed.

End AggregateFacts.

(** C1. When at least one finding is not ["healthy"] (and no confidence is
    NaN, as the data model has it), the aggregation answers with the class
    and the confidence of a disease finding whose confidence no other
    disease finding exceeds, and [total_diseases] is the number of disease
    findings. *)
Theorem aggregate_max_non_healthy (all : list Finding) :
  no_nan all ->
  (exists d, In d all /\ diseased d) ->
  exists best,
    In best all /\ diseased best /\
    (forall d, In d all -> diseased d -> at_most best d) /\
    aggregate all =
      inr {| prediction := d_class best;
             confidence := d_confidence best;
             all_detections := all;
             total_diseases := count_diseased all |}.
Proof.
  intros Hnan (d0 & Hd0 & Hdis0).
  destruct (aggregate_diseased all) as (pre & best & post & Hall & Hb & Hpre & Hpost & Hagg).
  - apply no_nan_non_healthy, Hnan.
  - intros E. assert (H : In d0 (non_healthy all)) by (apply non_healthy_In; auto).
    rewrite E in H. destruct H.
  - assert (Hin : In best all).
    { rewrite Hall. apply in_or_app. right. left. reflexivity. }
    exists best. repeat split; try assumption.
    intros d Hd Hdis. rewrite Hall in Hd.
    apply in_app_or in Hd. destruct Hd as [Hd|[Hd|Hd]].
    + apply below_at_most. apply Hpre; assumption.
    + subst d. apply (no_nan_at_most_refl all); assumption.
    + apply Hpost; assumption.
Qed.

Lemma aggregate_max_non_healthy_witness :
  exists best,
    In best [bud_rot_08; healthy_09] /\ diseased best /\
    (forall d, In d [bud_rot_08; healthy_09] -> diseased d -> at_most best d) /\
    aggregate [bud_rot_08; healthy_09] =
      inr {| prediction := d_class best;
             confidence := d_confidence best;
             all_detections := [bud_rot_08; healthy_09];
             total_diseases := count_diseased [bud_rot_08; healthy_09] |}.
Proof.
  apply (aggregate_max_non_healthy [bud_rot_08; healthy_09]).
  - repeat constructor.
  - exists bud_rot_08. split; [simpl; auto|discriminate].
Defined.

(** C4. When the list is not empty and every finding is ["healthy"] (and no
    confidence is NaN), the aggregation answers ["healthy"] with the
    greatest confidence of the list and [total_diseases] 0. *)
Theorem aggregate_only_healthy (all : list Finding) :
  no_nan all ->
  all <> [] ->
  (forall d, In d all -> d_class d = "healthy") ->
  exists best,
    In best all /\
    (forall d, In d all -> at_most best d) /\
    aggregate all =
      inr {| prediction := "healthy";
             confidence := d_confidence best;
             all_detections := all;
             total_diseases := 0 |}.
Proof.
  intros Hnan Hne Hall.
  apply aggregate_healthy; try assumption.
  apply non_healthy_nil, Hall.
Qed.

Lemma aggregate_only_healthy_witness :
  exists best,
    In best [healthy_09; healthy_095] /\
    (forall d, In d [healthy_09; healthy_095] -> at_most best d) /\
    aggregate [healthy_09; healthy_095] =
      inr {| prediction := "healthy";
             confidence := d_confidence best;
             all_detections := [healthy_09; healthy_095];
             total_diseases := 0 |}.
Proof.
  apply (aggregate_only_healthy [healthy_09; healthy_095]).
  - repeat constructor.
  - discriminate.
  - intros d [<-|[<-|[]]]; reflexivity.
Defined.

(** Two splits of one list: an element at an earlier position than the
    pivot of the other split lies in that split's prefix. *)
Lemma split_earlier_In {A : Type} (pre post l0 rest : list A) (x a : A) :
  pre ++ x :: post = l0 ++ a :: rest ->
  (List.length l0 < List.length pre)%nat ->
  In a pre.
Proof.
  intros Heq Hlt.
  assert (H : nth_error (pre ++ x :: post) (List.length l0) = Some a).
  { rewrite Heq. rewrite nth_error_app2 by apply Nat.le_refl.
    rewrite Nat.sub_diag. reflexivity. }
  rewrite nth_error_app1 in H by exact Hlt.
  eapply nth_error_In. exact H.
Qed.

(** C6. When two disease findings [a] and [b], [a] before [b] in the list,
    both carry the greatest confidence among the disease findings, the
    aggregation answers with the first disease finding of the list that
    carries that confidence: it stands at or before [a], shares [a]'s
    confidence, and every disease finding before it is strictly below it. *)
Theorem aggregate_tie_first (all l0 l1 l2 : list Finding) (a b : Finding) :
  all = l0 ++ a :: l1 ++ b :: l2 ->
  no_nan all ->
  diseased a -> diseased b ->
  (forall d, In d all -> diseased d -> at_most a d) ->
  (forall d, In d all -> diseased d -> at_most b d) ->
  exists pre first post,
    all = pre ++ first :: post /\
    (List.length pre <= List.length l0)%nat /\
    diseased first /\
    at_most first a /\ at_most a first /\
    (forall d, In d pre -> diseased d -> below first d) /\
    aggregate all =
      inr {| prediction := d_class first;
             confidence := d_confidence first;
             all_detections := all;
             total_diseases := count_diseased all |}.
Proof.
  intros Hall Hnan Ha Hb Hamax Hbmax.
  assert (Hina : In a all).
  { rewrite Hall. apply in_or_app. right. left. reflexivity. }
  destruct (aggregate_diseased all)
    as (pre & first & post & Hsplit & Hf & Hpre & Hpost & Hagg).
  - apply no_nan_non_healthy, Hnan.
  - intros E. assert (H : In a (non_healthy all)) by (apply non_healthy_In; auto).
    rewrite E in H. destruct H.
  - assert (Hinf : In first all).
    { rewrite Hsplit. apply in_or_app. right. left. reflexivity. }
    assert (Haf : at_most a first) by (apply Hamax; assumption).
    assert (Hpos : (List.length pre <= List.length l0)%nat).
    { destruct (Nat.le_gt_cases (List.length pre) (List.length l0)) as [H|H];
        [exact H|exfalso].
      assert (Hin : In a pre).
      { apply (split_earlier_In pre post l0 (l1 ++ b :: l2) first a); [|exact H].
        rewrite <- Hsplit. exact Hall. }
      apply (below_not_at_most a first); [apply Hpre; assumption|exact Haf]. }
    assert (Hfa : at_most first a).
    { rewrite Hsplit in Hina. apply in_app_or in Hina.
      destruct Hina as [Hi|[Hi|Hi]].
      - apply below_at_most, Hpre; assumption.
      - subst a. apply (no_nan_at_most_refl all); assumption.
      - apply Hpost; assumption. }
    exists pre, first, post. repeat split; assumption.
Qed.

Lemma aggregate_tie_first_witness :
  exists pre first post,
    [bud_rot_08; leaf_rot_09; healthy_095; drying_09] = pre ++ first :: post /\
    (List.length pre <= List.length [bud_rot_08])%nat /\
    diseased first /\
    at_most first leaf_rot_09 /\ at_most leaf_rot_09 first /\
    (forall d, In d pre -> diseased d -> below first d) /\
    aggregate [bud_rot_08; leaf_rot_09; healthy_095; drying_09] =
      inr {| prediction := d_class first;
             confidence := d_confidence first;
             all_detections := [bud_rot_08; leaf_rot_09; healthy_095; drying_09];
             total_diseases :=
               count_diseased [bud_rot_08; leaf_rot_09; healthy_095; drying_09] |}.
Proof.
  apply (aggregate_tie_first
           [bud_rot_08; leaf_rot_09; healthy_095; drying_09]
           [bud_rot_08] [healthy_095] [] leaf_rot_09 drying_09).
  - reflexivity.
  - repeat constructor.
  - discriminate.
  - discriminate.
  - intros d [<-|[<-|[<-|[<-|[]]]]] Hd; try reflexivity.
    exfalso. apply Hd. reflexivity.
  - intros d [<-|[<-|[<-|[<-|[]]]]] Hd; try reflexivity.
    exfalso. apply Hd. reflexivity.
Defined.

(** The tie of the witness is decided for the detection finding. *)
Example aggregate_tie_example :
  aggregate [bud_rot_08; leaf_rot_09; healthy_095; drying_09] =
    inr {| prediction := "leaf rot";
           confidence := f_0_9;
           all_detections := [bud_rot_08; leaf_rot_09; healthy_095; drying_09];
           total_diseases := 3 |}.
Proof. reflexivity. Qed.

(** [max] keeps a first item whose key is NaN, since no comparison with
    NaN holds: the hypothesis [no_nan] cannot be dropped. *)
Example aggregate_nan_first :
  exists r, aggregate nan_first = inr r /\
            prediction r = "bud rot" /\ confidence r = S754_nan.
Proof. eexists. split; [reflexivity|]. split; reflexivity. Qed.


(** ** What every run of the aggregation satisfies *)

Lemma aggregate_inv (all : list Finding) (r : AggregateResult) :
  aggregate all = inr r ->
  all_detections r = all /\
  total_diseases r = count_diseased all /\
  ((all <> [] /\ exists d, In d all /\ d_class d = prediction r) \/
   (all = [] /\ prediction r = "healthy" /\ confidence r = PyFloat.lit_0_5)).
Proof.
  unfold aggregate. cbv zeta. intros H.
  pose proof (non_healthy_count all) as Hcount.
  destruct (non_healthy all) as [|b l] eqn:E.
  - destruct all as [|c k].
    + injection H as <-. simpl. split; [reflexivity|]. split; [reflexivity|].
      right. auto.
    + simpl py_max in H. injection H as <-. simpl.
      split; [reflexivity|]. split; [simpl in Hcount; lia|].
      left. split; [discriminate|]. exists c. split; [left; reflexivity|].
      apply (proj1 (non_healthy_nil (c :: k)) E). left. reflexivity.
  - simpl py_max in H. injection H as <-. simpl.
    split; [reflexivity|]. split; [exact Hcount|].
    left. split; [intros ->; discriminate|].
    exists (max_from b l). split; [|reflexivity].
    assert (Hin : In (max_from b l) (non_healthy all))
      by (rewrite E; apply max_from_In).
    apply non_healthy_In in Hin. tauto.
Qed.

Lemma py_getitem_In {A : Type} (l : list A) (i : Z) (x : A) :
  py_getitem l i = inr x -> In x l.
Proof.
  unfold py_getitem.
  destruct ((0 <=? (if i <? 0 then i + Z.of_nat (List.length l) else i))
            && ((if i <? 0 then i + Z.of_nat (List.length l) else i)
                <? Z.of_nat (List.length l))); [|discriminate].
  destruct (nth_error l _) eqn:E; [|discriminate].
  intros H. injection H as <-. eapply nth_error_In. exact E.
Qed.

Lemma detection_loop_spec (boxes1 : list Box) :
  forall all out,
    detection_loop boxes1 all = inr out ->
    exists added,
      out = all ++ added /\
      List.length added = List.length boxes1 /\
      Forall detection_finding added.
Proof.
  induction boxes1 as [|b rest IH]; intros all out H; simpl in H.
  - injection H as <-. exists []. rewrite app_nil_r. auto.
  - destruct (PyFloat.to_int (cls b)) as [e|cls_index]; [discriminate|].
    destruct (py_getitem class_names_1 cls_index) as [e|name] eqn:E; [discriminate|].
    destruct (IH _ _ H) as (added & -> & Hlen & Hall).
    eexists (_ :: added). rewrite <- app_assoc. split; [reflexivity|].
    split; [simpl; congruence|].
    constructor; [|exact Hall].
    split; [reflexivity|]. simpl. apply py_getitem_In in E. exact E.
Qed.

Lemma classification_loop_spec (pairs : list (Z * float)) :
  forall all out,
    classification_loop pairs all = inr out ->
    exists added,
      out = all ++ added /\
      (List.length added <= List.length pairs)%nat /\
      Forall classification_finding added.
Proof.
  induction pairs as [|[cls_index c] rest IH]; intros all out H; simpl in H.
  - injection H as <-. exists []. rewrite app_nil_r. auto.
  - destruct (py_getitem class_names_2 cls_index) as [e|disease] eqn:E; [discriminate|].
    destruct (PyFloat.gt c PyFloat.lit_0_1) eqn:G.
    + destruct (IH _ _ H) as (added & -> & Hlen & Hall).
      eexists (_ :: added). rewrite <- app_assoc. split; [reflexivity|].
      split; [simpl; lia|].
      constructor; [|exact Hall].
      split; [reflexivity|]. split; [|exact G].
      simpl. apply py_getitem_In in E. exact E.
    + destruct (IH _ _ H) as (added & -> & Hlen & Hall).
      exists added. split; [reflexivity|]. split; [simpl; lia|exact Hall].
Qed.

(** ** The [try] block *)

Lemma bind_inr {A B : Type} (m : M A) (f : A -> M B) (t : list Event) (b : B) :
  bind m f = (t, inr b) ->
  exists t1 a t2, m = (t1, inr a) /\ f a = (t2, inr b) /\ t = t1 ++ t2.
Proof.
  unfold bind. destruct m as [t1 [e|a]]; [discriminate|].
  destruct (f a) as [t2 r] eqn:E. intros H. injection H as <- ->.
  exists t1, a, t2. auto.
Qed.

Section HandlerFacts.

Variable Image : Type.
Variable open_rgb : list Byte.byte -> result Image.


Lemma run_model1_inv (g : Globals Image) (image : Image)
      (all out : list Finding) (t : list Event) :
  run_model1 g image all = (t, inr out) ->
  exists dets, out = all ++ dets /\ Forall detection_finding dets.
Proof.
  unfold run_model1.
  destruct (model1 g) as [m|];
    [destruct (type_is (model1_type g) "detection")|].
  - intros H. apply bind_inr in H.
    destruct H as (t1 & results1 & t2 & _ & H & _).
    unfold lift in H. injection H as _ H.
    apply detection_loop_spec in H. destruct H as (added & -> & _ & Hall).
    exists added. auto.
  - intros H. injection H as _ <-. exists []. rewrite app_nil_r. auto.
  - intros H. injection H as _ <-. exists []. rewrite app_nil_r. auto.
Qed.

Lemma run_model2_inv (g : Globals Image) (image : Image)
      (all out : list Finding) (t : list Event) :
  run_model2 g image all = (t, inr out) ->
  exists clss,
    out = all ++ clss /\
    Forall classification_finding clss /\
    (top5_contract g -> (List.length clss <= 5)%nat).
Proof.
  unfold run_model2.
  destruct (model2 g) as [m|] eqn:Em;
    [destruct (type_is (model2_type g) "classify")|].
  - intros H. apply bind_inr in H.
    destruct H as (t1 & results2 & t2 & Hcall & H & _).
    apply bind_inr in H. destruct H as (t3 & pairs & t4 & Hpairs & H & _).
    unfold lift in H, Hpairs. injection H as _ H. injection Hpairs as _ Hpairs.
    unfold call in Hcall. injection Hcall as _ Hcall.
    apply classification_loop_spec in H. destruct H as (added & -> & Hlen & Hall).
    exists added. split; [reflexivity|]. split; [exact Hall|].
    intros Hc. unfold classification_pairs in Hpairs.
    destruct results2 as [|r0 rs].
    + injection Hpairs as <-. simpl in Hlen. lia.
    + destruct (probs r0) as [p|] eqn:Ep; [|discriminate].
      injection Hpairs as <-.
      pose proof (Hc m image r0 rs p Em Hcall Ep) as H5.
      rewrite length_combine in Hlen. lia.
  - intros H. injection H as _ <-. exists []. rewrite app_nil_r.
    repeat split; [constructor|simpl; lia].
  - intros H. injection H as _ <-. exists []. rewrite app_nil_r.
    repeat split; [constructor|simpl; lia].
Qed.

(** A response that carries a result comes from the end of the [try]
    block: the file was there, the image was decoded, and the result is
    the aggregation of the detection findings followed by the
    classification findings. *)
Lemma predict_result_inv (g : Globals Image) (request : Request)
      (t : list Event) (response : Response) (r : AggregateResult) :
  predict open_rgb g request = (t, response) ->
  body response = JResult r ->
  exists file image dets clss t1 t2,
    files_get (files request) "file" = Some file /\
    open_rgb (stream file) = inr image /\
    run_model1 g image [] = (t1, inr dets) /\
    run_model2 g image dets = (t2, inr (dets ++ clss)) /\
    Forall detection_finding dets /\
    Forall classification_finding clss /\
    (top5_contract g -> (List.length clss <= 5)%nat) /\
    aggregate (dets ++ clss) = inr r /\
    status response = 200.
Proof.
  unfold predict. intros H Hbody.
  destruct (is_None (model1 g) && is_None (model2 g)).
  { injection H as _ <-. discriminate. }
  destruct (files_get (files request) "file") as [file|].
  2: { injection H as _ <-. discriminate. }
  destruct (String.eqb (filename file) "").
  { injection H as _ <-. discriminate. }
  destruct (predict_try open_rgb g file) as [t' [e|resp]] eqn:E.
  { injection H as _ <-. discriminate. }
  injection H as _ <-.
  unfold predict_try in E.
  apply bind_inr in E. destruct E as (t1 & image & t2 & Hopen & E & _).
  apply bind_inr in E. destruct E as (t3 & all1 & t4 & H1 & E & _).
  apply bind_inr in E. destruct E as (t5 & all2 & t6 & H2 & E & _).
  apply bind_inr in E. destruct E as (t7 & r' & t8 & Hagg & E & _).
  unfold ret in E. injection E as _ <-.
  simpl in Hbody. injection Hbody as ->.
  unfold call in Hopen. injection Hopen as _ Hopen.
  unfold lift in Hagg. injection Hagg as _ Hagg.
  pose proof H1 as H1'. pose proof H2 as H2'.
  apply run_model1_inv in H1. destruct H1 as (dets & -> & Hdets).
  apply run_model2_inv in H2. destruct H2 as (clss & -> & Hclss & Hlen).
  exists file, image, dets, clss, t3, t5. simpl in *. auto 10.
Qed.

End HandlerFacts.

(** The scenarios of the specification, through the handler. *)
Example scenario_bud_rot :
  predict open_ok g_both request_leaf =
    ([Image_open; model1_predict; model2_predict], ok result_bud_rot).
Proof. reflexivity. Qed.

Example scenario_healthy :
  predict open_ok
    (load_models (inr (fixed_model results_no_boxes))
                 (inr (fixed_model results_healthy_095)))
    request_leaf =
    ([Image_open; model1_predict; model2_predict],
     ok {| prediction := "healthy"; confidence := f_0_95;
           all_detections := [healthy_095]; total_diseases := 0 |}).
Proof. reflexivity. Qed.

Example scenario_nothing :
  predict open_ok g_nothing request_leaf =
    ([Image_open; model1_predict; model2_predict], ok result_no_findings).
Proof. reflexivity. Qed.

Example scenario_no_file :
  predict open_ok g_both request_no_file =
    ([], {| body := JError "No file part"; status := 400 |}).
Proof. reflexivity. Qed.

(** ** The invariants of the result *)

(** C2. The prediction is the class of an entry of [all_detections],
    unless [all_detections] is empty, and then the prediction is
    ["healthy"] with confidence 0.5. *)
Theorem prediction_in_all_detections (all : list Finding) :
  exists r,
    aggregate all = inr r /\
    ((all_detections r <> [] /\
      exists d, In d (all_detections r) /\ d_class d = prediction r) \/
     (all_detections r = [] /\
      prediction r = "healthy" /\ confidence r = PyFloat.lit_0_5)).
Proof.
  destruct (aggregate_total all) as (r & Hr & _).
  exists r. split; [exact Hr|].
  destruct (aggregate_inv all r Hr) as (Hall & _ & H).
  rewrite Hall. exact H.
Qed.

(** C3. [total_diseases] is the number of entries of the returned
    [all_detections] whose class is not ["healthy"], on every branch. *)
Theorem total_diseases_counts_non_healthy (all : list Finding) :
  exists r,
    aggregate all = inr r /\
    total_diseases r = count_diseased (all_detections r).
Proof.
  destruct (aggregate_total all) as (r & Hr & _).
  exists r. split; [exact Hr|].
  destruct (aggregate_inv all r Hr) as (Hall & Hcount & _).
  rewrite Hall. exact Hcount.
Qed.

(** C8. The aggregation returns the list it was given as [all_detections]
    on every branch, and in a response that list is the detection findings
    followed by the classification findings. *)
Theorem all_detections_is_the_concatenation :
  (forall all : list Finding,
      exists r, aggregate all = inr r /\ all_detections r = all) /\
  (forall (Image : Type) (open_rgb : list Byte.byte -> result Image)
          (g : Globals Image) (request : Request)
          (t : list Event) (response : Response) (r : AggregateResult),
      predict open_rgb g request = (t, response) ->
      body response = JResult r ->
      exists file image dets clss t1 t2,
        files_get (files request) "file" = Some file /\
        open_rgb (stream file) = inr image /\
        run_model1 g image [] = (t1, inr dets) /\
        run_model2 g image dets = (t2, inr (dets ++ clss)) /\
        Forall detection_finding dets /\
        Forall classification_finding clss /\
        all_detections r = dets ++ clss).
Proof.
  split; [exact aggregate_total|].
  intros Image open_rgb g request t response r H Hbody.
  destruct (predict_result_inv Image open_rgb g request t response r H Hbody)
    as (file & image & dets & clss & t1 & t2 & Hf & Ho & H1 & H2 & Hd & Hc & _ & Hagg & _).
  exists file, image, dets, clss, t1, t2.
  apply aggregate_inv in Hagg. destruct Hagg as (Hall & _).
  auto 10.
Qed.

Lemma all_detections_is_the_concatenation_witness :
  all_detections result_bud_rot = [bud_rot_08] ++ [healthy_09] /\
  exists r, aggregate [bud_rot_08; healthy_09] = inr r /\
            all_detections r = [bud_rot_08; healthy_09].
Proof.
  split.
  - destruct (proj2 all_detections_is_the_concatenation
                unit open_ok g_both request_leaf
                [Image_open; model1_predict; model2_predict]
                (ok result_bud_rot) result_bud_rot eq_refl eq_refl)
      as (file & image & dets & clss & t1 & t2 & _ & _ & _ & _ & _ & _ & _).
    reflexivity.
  - apply (proj1 all_detections_is_the_concatenation).
Defined.

Lemma count_classification_app (l k : list Finding) :
  count_classification (l ++ k) = count_classification l + count_classification k.
Proof.
  induction l as [|d l IH]; [reflexivity|].
  cbn [app count_classification]. rewrite IH.
  destruct (string_dec (d_model d) "classification"); lia.
Qed.

Lemma count_classification_length (l : list Finding) :
  count_classification l <= Z.of_nat (List.length l).
Proof.
  induction l as [|d l IH]; [reflexivity|].
  cbn [count_classification List.length]. rewrite Nat2Z.inj_succ.
  destruct (string_dec (d_model d) "classification"); lia.
Qed.

Lemma count_classification_detection (l : list Finding) :
  Forall detection_finding l -> count_classification l = 0.
Proof.
  induction 1 as [|d l [Hm _] _ IH]; [reflexivity|].
  cbn [count_classification].
  destruct (string_dec (d_model d) "classification") as [E|E]; [|exact IH].
  rewrite Hm in E. discriminate.
Qed.

(** ** The run without findings *)

(** C5. On the empty list the aggregation returns exactly ["healthy"],
    0.5, the empty list and 0; and a request for which neither model adds
    a finding is answered with exactly that result. *)
Theorem predict_no_findings
        (Image : Type) (open_rgb : list Byte.byte -> result Image)
        (g : Globals Image) (request : Request)
        (file : FileStorage) (image : Image) (t1 t2 : list Event) :
  model1 g <> None \/ model2 g <> None ->
  files_get (files request) "file" = Some file ->
  filename file <> "" ->
  open_rgb (stream file) = inr image ->
  run_model1 g image [] = (t1, inr []) ->
  run_model2 g image [] = (t2, inr []) ->
  aggregate [] = inr result_no_findings /\
  predict open_rgb g request = (Image_open :: t1 ++ t2, ok result_no_findings).
Proof.
  intros Hm Hf Hn Ho H1 H2. split; [reflexivity|].
  unfold predict. rewrite Hf.
  apply String.eqb_neq in Hn. rewrite Hn.
  assert (Hg : is_None (model1 g) && is_None (model2 g) = false).
  { destruct (model1 g), (model2 g); try reflexivity.
    destruct Hm as [Hm|Hm]; congruence. }
  rewrite Hg. unfold predict_try, bind, call. rewrite Ho, H1, H2.
  simpl. rewrite !app_nil_r. reflexivity.
Qed.

Lemma predict_no_findings_witness :
  aggregate [] = inr result_no_findings /\
  predict open_ok g_nothing request_leaf =
    (Image_open :: [model1_predict] ++ [model2_predict], ok result_no_findings).
Proof.
  refine (predict_no_findings unit open_ok g_nothing request_leaf
            {| filename := "leaf.jpg"; stream := [] |} tt
            [model1_predict] [model2_predict] _ _ _ eq_refl eq_refl eq_refl).
  - left. discriminate.
  - reflexivity.
  - discriminate.
Defined.

(** ** The classification floor *)

(** C7. When [top5] holds at most five indices, a response lists at most
    five classification findings, each with a confidence strictly above
    0.1; none has a confidence of 0.1 or less. *)
Theorem classification_findings_above_floor
        (Image : Type) (open_rgb : list Byte.byte -> result Image)
        (g : Globals Image) (request : Request)
        (t : list Event) (response : Response) (r : AggregateResult) :
  top5_contract g ->
  predict open_rgb g request = (t, response) ->
  body response = JResult r ->
  count_classification (all_detections r) <= 5 /\
  (forall d, In d (all_detections r) -> d_model d = "classification" ->
             PyFloat.gt (d_confidence d) PyFloat.lit_0_1 = true /\
             PyFloat.le (d_confidence d) PyFloat.lit_0_1 = false).
Proof.
  intros Hc H Hbody.
  destruct (predict_result_inv Image open_rgb g request t response r H Hbody)
    as (file & image & dets & clss & t1 & t2 & _ & _ & _ & _ & Hd & Hcl & Hlen & Hagg & _).
  apply aggregate_inv in Hagg. destruct Hagg as (-> & _).
  specialize (Hlen Hc). split.
  - pose proof (count_classification_detection dets Hd) as H0.
    pose proof (count_classification_length clss) as H2.
    rewrite count_classification_app, H0. lia.
  - intros d Hin Hm. apply in_app_or in Hin. destruct Hin as [Hin|Hin].
    + rewrite Forall_forall in Hd. destruct (Hd d Hin) as [Hm' _].
      rewrite Hm' in Hm. discriminate.
    + rewrite Forall_forall in Hcl. destruct (Hcl d Hin) as (_ & _ & Hgt).
      split; [exact Hgt|].
      destruct (PyFloat.le (d_confidence d) PyFloat.lit_0_1) eqn:E; [|reflexivity].
      apply PyFloatFacts.gt_irrefl_le in E. congruence.
Qed.

Lemma classification_findings_above_floor_witness :
  count_classification (all_detections result_bud_rot) <= 5 /\
  (forall d, In d (all_detections result_bud_rot) -> d_model d = "classification" ->
             PyFloat.gt (d_confidence d) PyFloat.lit_0_1 = true /\
             PyFloat.le (d_confidence d) PyFloat.lit_0_1 = false).
Proof.
  apply (classification_findings_above_floor unit open_ok g_both request_leaf
           [Image_open; model1_predict; model2_predict]
           (ok result_bud_rot) result_bud_rot).
  - intros m image r0 rs p Hm Hp Hprobs.
    simpl in Hm. injection Hm as <-. simpl in Hp. injection Hp as <- <-.
    simpl in Hprobs. injection Hprobs as <-. simpl. lia.
  - reflexivity.
  - reflexivity.
Defined.

(** ** The detection vocabulary *)

Lemma class_names_1_diseased (c : string) :
  In c class_names_1 -> c <> "healthy".
Proof.
  unfold class_names_1. simpl.
  intros [<-|[<-|[<-|[<-|[<-|[]]]]]]; discriminate.
Qed.

Lemma count_diseased_nonneg (l : list Finding) : 0 <= count_diseased l.
Proof.
  induction l as [|d l IH]; [reflexivity|].
  cbn [count_diseased]. destruct (string_dec (d_class d) "healthy"); lia.
Qed.

Lemma count_detection_le_diseased (l : list Finding) :
  (forall d, In d l -> d_model d = "detection" -> diseased d) ->
  count_detection l <= count_diseased l.
Proof.
  induction l as [|d l IH]; intros H; [reflexivity|].
  cbn [count_detection count_diseased].
  assert (IH' : count_detection l <= count_diseased l).
  { apply IH. intros x Hx. apply H. right. exact Hx. }
  destruct (string_dec (d_model d) "detection") as [E|E];
    destruct (string_dec (d_class d) "healthy") as [F|F]; try lia.
  exfalso. apply (H d); [left; reflexivity|exact E|exact F].
Qed.

(** C10. In a response, every finding of the detection model has its class
    in [class_names_1], which does not hold ["healthy"]; such a finding
    counts as a disease, and [total_diseases] is at least the number of
    detection findings of [all_detections]. *)
Theorem detection_findings_are_diseases
        (Image : Type) (open_rgb : list Byte.byte -> result Image)
        (g : Globals Image) (request : Request)
        (t : list Event) (response : Response) (r : AggregateResult) :
  predict open_rgb g request = (t, response) ->
  body response = JResult r ->
  List.length class_names_1 = 5%nat /\
  ~ In "healthy" class_names_1 /\
  (forall d, In d (all_detections r) -> d_model d = "detection" ->
             In (d_class d) class_names_1 /\ diseased d) /\
  count_detection (all_detections r) <= total_diseases r.
Proof.
  intros H Hbody.
  destruct (predict_result_inv Image open_rgb g request t response r H Hbody)
    as (file & image & dets & clss & t1 & t2 & _ & _ & _ & _ & Hd & Hcl & _ & Hagg & _).
  apply aggregate_inv in Hagg. destruct Hagg as (Hall & Hcount & _).
  rewrite Hcount, Hall.
  assert (Hdet : forall d, In d (dets ++ clss) -> d_model d = "detection" ->
                           In (d_class d) class_names_1 /\ diseased d).
  { intros d Hin Hm. apply in_app_or in Hin. destruct Hin as [Hin|Hin].
    - rewrite Forall_forall in Hd. destruct (Hd d Hin) as [_ Hc].
      split; [exact Hc|]. apply class_names_1_diseased, Hc.
    - rewrite Forall_forall in Hcl. destruct (Hcl d Hin) as [Hm' _].
      rewrite Hm' in Hm. discriminate. }
  split; [reflexivity|].
  split; [intros Hin; apply (class_names_1_diseased _ Hin); reflexivity|].
  split; [exact Hdet|].
  apply count_detection_le_diseased. intros d Hin Hm. apply (Hdet d Hin Hm).
Qed.

Lemma detection_findings_are_diseases_witness :
  List.length class_names_1 = 5%nat /\
  ~ In "healthy" class_names_1 /\
  (forall d, In d (all_detections result_bud_rot) -> d_model d = "detection" ->
             In (d_class d) class_names_1 /\ diseased d) /\
  count_detection (all_detections result_bud_rot) <= total_diseases result_bud_rot.
Proof.
  apply (detection_findings_are_diseases unit open_ok g_both request_leaf
           [Image_open; model1_predict; model2_predict]
           (ok result_bud_rot) result_bud_rot).
  - reflexivity.
  - reflexivity.
Defined.

(** ** The error responses *)

(** C9, as the handler has it. With no model loaded the answer is 500
    ["Models not loaded"], whatever the request holds. With a model loaded,
    a request without the field ['file'] gets 400 ["No file part"], and a
    request whose file has an empty name gets 400 ["No selected file"]. In
    all three cases nothing is decoded and no model is run. *)
Theorem predict_error_responses
        (Image : Type) (open_rgb : list Byte.byte -> result Image)
        (g : Globals Image) (request : Request) :
  (model1 g = None -> model2 g = None ->
   predict open_rgb g request =
     ([], {| body := JError "Models not loaded"; status := 500 |})) /\
  (model1 g <> None \/ model2 g <> None ->
   files_get (files request) "file" = None ->
   predict open_rgb g request =
     ([], {| body := JError "No file part"; status := 400 |})) /\
  (model1 g <> None \/ model2 g <> None ->
   forall file,
     files_get (files request) "file" = Some file ->
     filename file = "" ->
     predict open_rgb g request =
       ([], {| body := JError "No selected file"; status := 400 |})).
Proof.
  unfold predict. repeat split.
  - intros -> ->. reflexivity.
  - intros Hm ->.
    destruct (model1 g), (model2 g); simpl; try reflexivity.
    destruct Hm as [Hm|Hm]; congruence.
  - intros Hm file -> ->.
    destruct (model1 g), (model2 g); simpl; try reflexivity.
    destruct Hm as [Hm|Hm]; congruence.
Qed.

Lemma predict_error_responses_witness :
  predict open_ok g_none request_leaf =
    ([], {| body := JError "Models not loaded"; status := 500 |}) /\
  predict open_ok g_both request_no_file =
    ([], {| body := JError "No file part"; status := 400 |}) /\
  predict open_ok g_both request_unnamed =
    ([], {| body := JError "No selected file"; status := 400 |}).
Proof.
  split; [|split].
  - exact (proj1 (predict_error_responses unit open_ok g_none request_leaf)
             eq_refl eq_refl).
  - refine (proj1 (proj2 (predict_error_responses unit open_ok g_both
                            request_no_file)) _ eq_refl).
    left. discriminate.
  - refine (proj2 (proj2 (predict_error_responses unit open_ok g_both
                            request_unnamed)) _
              {| filename := ""; stream := [] |} eq_refl eq_refl).
    left. discriminate.
Defined.

(** C9 as stated fails: a request without the field ['file'] sent while no
    model is loaded is answered with 500, not with 400 ["No file part"]. *)
Lemma no_file_part_without_models :
  files_get (files request_no_file) "file" = None /\
  predict open_ok g_none request_no_file =
    ([], {| body := JError "Models not loaded"; status := 500 |}) /\
  status (snd (predict open_ok g_none request_no_file)) <> 400.
Proof.
  split; [reflexivity|]. split; [reflexivity|]. discriminate.
Qed.

(** * Further properties of the handler *)

(** ** Python's indexing *)

Lemma py_getitem_ok_iff {A : Type} (l : list A) (i : Z) :
  (exists x, py_getitem l i = inr x) <->
  - Z.of_nat (List.length l) <= i < Z.of_nat (List.length l).
Proof.
  unfold py_getitem.
  set (n := Z.of_nat (List.length l)).
  destruct (Z.ltb_spec i 0) as [Hneg|Hpos].
  - destruct (Z.leb_spec 0 (i + n)) as [H0|H0];
      destruct (Z.ltb_spec (i + n) n) as [H1|H1]; simpl.
    + destruct (nth_error l (Z.to_nat (i + n))) as [x|] eqn:E.
      * split; [lia|]. intros _. exists x. reflexivity.
      * apply nth_error_None in E. unfold n in *. lia.
    + split; [intros [x Hx]; discriminate|lia].
    + split; [intros [x Hx]; discriminate|lia].
    + split; [intros [x Hx]; discriminate|lia].
  - destruct (Z.leb_spec 0 i) as [H0|H0];
      destruct (Z.ltb_spec i n) as [H1|H1]; simpl.
    + destruct (nth_error l (Z.to_nat i)) as [x|] eqn:E.
      * split; [lia|]. intros _. exists x. reflexivity.
      * apply nth_error_None in E. unfold n in *. lia.
    + split; [intros [x Hx]; discriminate|lia].
    + split; [intros [x Hx]; discriminate|lia].
    + split; [intros [x Hx]; discriminate|lia].
Qed.

Lemma py_getitem_error {A : Type} (l : list A) (i : Z) (e : Exn) :
  py_getitem l i = inl e -> e = IndexError_list.
Proof.
  unfold py_getitem.
  destruct (_ && _); [destruct (nth_error l _)|]; intros H;
    try discriminate; injection H as <-; reflexivity.
Qed.

(** ** The stages of the [try] block *)

Lemma predict_try_stages (Image : Type)
      (open_rgb : list Byte.byte -> result Image)
      (g : Globals Image) (file : FileStorage) :
  predict_try open_rgb g file =
    match open_rgb (stream file) with
    | inl e => ([Image_open], inl e)
    | inr image =>
        match run_model1 g image [] with
        | (t1, inl e) => (Image_open :: t1, inl e)
        | (t1, inr dets) =>
            match run_model2 g image dets with
            | (t2, inl e) => (Image_open :: t1 ++ t2, inl e)
            | (t2, inr all) =>
                match aggregate all with
                | inl e => (Image_open :: t1 ++ t2, inl e)
                | inr r => (Image_open :: t1 ++ t2, inr (ok r))
                end
            end
        end
    end.
Proof.
  unfold predict_try, bind, call, lift, ret, ok.
  destruct (open_rgb (stream file)) as [e|image]; [reflexivity|].
  destruct (run_model1 g image []) as [t1 [e|dets]]; [reflexivity|].
  destruct (run_model2 g image dets) as [t2 [e|all]];
    [simpl; rewrite ?app_nil_r; reflexivity|].
  destruct (aggregate all) as [e|r]; simpl; rewrite ?app_nil_r; reflexivity.
Qed.

Lemma loaded_guard (Image : Type) (g : Globals Image) :
  loaded g -> is_None (model1 g) && is_None (model2 g) = false.
Proof.
  unfold loaded. destruct (model1 g), (model2 g); try reflexivity.
  intros [H|H]; congruence.
Qed.

Lemma predict_guarded (Image : Type)
      (open_rgb : list Byte.byte -> result Image)
      (g : Globals Image) (request : Request) (file : FileStorage) :
  loaded g ->
  files_get (files request) "file" = Some file ->
  filename file <> "" ->
  predict open_rgb g request = try_response (predict_try open_rgb g file).
Proof.
  intros Hl Hf Hn. unfold predict.
  rewrite (loaded_guard Image g Hl), Hf.
  apply String.eqb_neq in Hn. rewrite Hn. reflexivity.
Qed.

(** The four ways through the handler. *)
Lemma predict_cases (Image : Type)
      (open_rgb : list Byte.byte -> result Image)
      (g : Globals Image) (request : Request) :
  (model1 g = None /\ model2 g = None /\
   predict open_rgb g request = ([], error "Models not loaded" 500)) \/
  (loaded g /\ files_get (files request) "file" = None /\
   predict open_rgb g request = ([], error "No file part" 400)) \/
  (loaded g /\ exists file,
     files_get (files request) "file" = Some file /\ filename file = "" /\
     predict open_rgb g request = ([], error "No selected file" 400)) \/
  (loaded g /\ exists file,
     files_get (files request) "file" = Some file /\ filename file <> "" /\
     predict open_rgb g request = try_response (predict_try open_rgb g file)).
Proof.
  destruct (model1 g) as [m1|] eqn:E1.
  2: destruct (model2 g) as [m2|] eqn:E2.
  3: { left. unfold predict. rewrite E1, E2. auto. }
  all: right;
    assert (Hl : loaded g) by (unfold loaded; rewrite ?E1, ?E2;
                               first [left; discriminate|right; discriminate]);
    destruct (files_get (files request) "file") as [file|] eqn:Ef;
    [ right; destruct (string_dec (filename file) "") as [En|En];
      [ left; split; [exact Hl|]; exists file; repeat split; auto;
        unfold predict; rewrite (loaded_guard Image g Hl), Ef, En; reflexivity
      | right; split; [exact Hl|]; exists file; repeat split; auto;
        apply predict_guarded; assumption ]
    | left; split; [exact Hl|]; split; [reflexivity|];
      unfold predict; rewrite (loaded_guard Image g Hl), Ef; reflexivity ].
Qed.

Lemma run_model1_cases (Image : Type) (g : Globals Image) (image : Image)
      (all : list Finding) :
  ((model1 g = None \/ type_is (model1_type g) "detection" = false) /\
   run_model1 g image all = ([], inr all)) \/
  (exists m,
     model1 g = Some m /\
     run_model1 g image all =
       ([model1_predict],
        match yolo_predict m image with
        | inl e => inl e
        | inr results1 => detection_loop (detection_rows results1) all
        end)).
Proof.
  unfold run_model1.
  destruct (model1 g) as [m|]; [|left; auto].
  destruct (type_is (model1_type g) "detection"); [|left; auto].
  right. exists m. split; [reflexivity|].
  unfold bind, call, lift.
  destruct (yolo_predict m image) as [e|rs]; [reflexivity|].
  simpl. reflexivity.
Qed.

Lemma run_model2_cases (Image : Type) (g : Globals Image) (image : Image)
      (all : list Finding) :
  ((model2 g = None \/ type_is (model2_type g) "classify" = false) /\
   run_model2 g image all = ([], inr all)) \/
  (exists m,
     model2 g = Some m /\
     run_model2 g image all =
       ([model2_predict],
        match yolo_predict m image with
        | inl e => inl e
        | inr results2 =>
            match classification_pairs results2 with
            | inl e => inl e
            | inr pairs => classification_loop pairs all
            end
        end)).
Proof.
  unfold run_model2.
  destruct (model2 g) as [m|]; [|left; auto].
  destruct (type_is (model2_type g) "classify"); [|left; auto].
  right. exists m. split; [reflexivity|].
  unfold bind, call, lift.
  destruct (yolo_predict m image) as [e|rs]; [reflexivity|].
  destruct (classification_pairs rs) as [e|pairs]; reflexivity.
Qed.

(** ** When the loops raise *)




Lemma classification_loop_ok_iff (pairs : list (Z * float)) :
  forall all,
    (exists out, classification_loop pairs all = inr out) <->
    Forall pair_index_ok pairs.
Proof.
  induction pairs as [|[i c] rest IH]; intros all; simpl.
  - split; [constructor|]. intros _. exists all. reflexivity.
  - pose proof (py_getitem_ok_iff class_names_2 i) as Hget.
    change (Z.of_nat (List.length class_names_2)) with 6 in Hget.
    destruct (py_getitem class_names_2 i) as [e|disease] eqn:Eg.
    + split; [intros [out H]; discriminate|].
      intros H. inversion H as [|? ? Hr _]. unfold pair_index_ok in Hr.
      simpl in Hr. destruct (proj2 Hget Hr) as [name Hname]. discriminate.
    + assert (Hi : pair_index_ok (i, c)).
      { unfold pair_index_ok. simpl. apply Hget. exists disease. reflexivity. }
      destruct (PyFloat.gt c PyFloat.lit_0_1); rewrite IH; split;
        intros H; try (constructor; assumption); inversion H; assumption.
Qed.

Lemma classification_loop_error (pairs : list (Z * float)) :
  forall all e,
    classification_loop pairs all = inl e -> e = IndexError_list.
Proof.
  induction pairs as [|[i c] rest IH]; intros all e H; simpl in H; [discriminate|].
  destruct (py_getitem class_names_2 i) as [e'|disease] eqn:Eg.
  - injection H as <-. apply py_getitem_error in Eg. exact Eg.
  - destruct (PyFloat.gt c PyFloat.lit_0_1); eapply IH; exact H.
Qed.



Lemma run_model1_trace (Image : Type) (g : Globals Image) (image : Image)
      (all : list Finding) :
  fst (run_model1 g image all) = [] \/
  fst (run_model1 g image all) = [model1_predict].
Proof.
  destruct (run_model1_cases Image g image all) as [(_ & ->)|(m & _ & ->)]; auto.
Qed.

Lemma run_model2_trace (Image : Type) (g : Globals Image) (image : Image)
      (all : list Finding) :
  fst (run_model2 g image all) = [] \/
  fst (run_model2 g image all) = [model2_predict].
Proof.
  destruct (run_model2_cases Image g image all) as [(_ & ->)|(m & _ & ->)]; auto.
Qed.

(** ** Responses and calls *)

(** X1. Every response is a 200 that carries a result, one of the two 400
    answers about the upload, or a 500 that carries a message. *)
Theorem predict_status_body
        (Image : Type) (open_rgb : list Byte.byte -> result Image)
        (g : Globals Image) (request : Request) :
  (exists r, snd (predict open_rgb g request) = ok r) \/
  snd (predict open_rgb g request) = error "No file part" 400 \/
  snd (predict open_rgb g request) = error "No selected file" 400 \/
  (exists e, snd (predict open_rgb g request) = error e 500).
Proof.
  destruct (predict_cases Image open_rgb g request)
    as [(_ & _ & ->)|[(_ & _ & ->)|[(_ & file & _ & _ & ->)|(_ & file & _ & _ & ->)]]].
  - right. right. right. eexists. reflexivity.
  - right. left. reflexivity.
  - right. right. left. reflexivity.
  - rewrite predict_try_stages.
    destruct (open_rgb (stream file)) as [e|image].
    { right. right. right. exists e. reflexivity. }
    destruct (run_model1 g image []) as [t1 [e|dets]].
    { right. right. right. exists e. reflexivity. }
    destruct (run_model2 g image dets) as [t2 [e|all]].
    { right. right. right. exists e. reflexivity. }
    destruct (aggregate all) as [e|r].
    + right. right. right. exists e. reflexivity.
    + left. exists r. reflexivity.
Qed.

(** X2. The handler decodes the image before it runs a model, runs each
    model at most once, and the detection model before the classification
    model: its calls are one of five sequences. *)
Theorem predict_call_order
        (Image : Type) (open_rgb : list Byte.byte -> result Image)
        (g : Globals Image) (request : Request) :
  In (fst (predict open_rgb g request))
     [ [];
       [Image_open];
       [Image_open; model1_predict];
       [Image_open; model2_predict];
       [Image_open; model1_predict; model2_predict] ].
Proof.
  destruct (predict_cases Image open_rgb g request)
    as [(_ & _ & ->)|[(_ & _ & ->)|[(_ & file & _ & _ & ->)|(_ & file & _ & _ & ->)]]];
    try (left; reflexivity).
  rewrite predict_try_stages.
  destruct (open_rgb (stream file)) as [e|image]; [right; left; reflexivity|].
  pose proof (run_model1_trace Image g image []) as H1.
  destruct (run_model1 g image []) as [t1 [e|dets]]; simpl in H1.
  { destruct H1 as [-> | ->]; simpl; auto. }
  pose proof (run_model2_trace Image g image dets) as H2.
  destruct (run_model2 g image dets) as [t2 [e|all]]; simpl in H2.
  { destruct H1 as [-> | ->], H2 as [-> | ->]; simpl; auto 6. }
  destruct (aggregate all) as [e|r];
    destruct H1 as [-> | ->], H2 as [-> | ->]; simpl; auto 6.
Qed.

(** X3. When the upload cannot be decoded, the answer is a 500 with the
    message of the exception, and no model is run. *)
Theorem predict_decode_failure
        (Image : Type) (open_rgb : list Byte.byte -> result Image)
        (g : Globals Image) (request : Request)
        (file : FileStorage) (e : Exn) :
  loaded g ->
  files_get (files request) "file" = Some file ->
  filename file <> "" ->
  open_rgb (stream file) = inl e ->
  predict open_rgb g request = ([Image_open], error e 500).
Proof.
  intros Hl Hf Hn Ho.
  rewrite (predict_guarded Image open_rgb g request file Hl Hf Hn).
  rewrite predict_try_stages, Ho. reflexivity.
Qed.

Lemma predict_decode_failure_witness :
  predict open_fail g_both request_leaf =
    ([Image_open], error "cannot identify image file" 500).
Proof.
  refine (predict_decode_failure unit open_fail g_both request_leaf file_leaf
            "cannot identify image file" _ eq_refl _ eq_refl).
  - left. discriminate.
  - discriminate.
Defined.

(** ** One failure aborts the request *)

(** X4. When the detection model raises, the answer is a 500 with its
    message and the classification model is not run. *)
Theorem predict_detection_model_raises
        (Image : Type) (open_rgb : list Byte.byte -> result Image)
        (g : Globals Image) (request : Request)
        (file : FileStorage) (image : Image) (m : YOLO Image) (e : Exn) :
  files_get (files request) "file" = Some file ->
  filename file <> "" ->
  open_rgb (stream file) = inr image ->
  model1 g = Some m ->
  model1_type g = Some "detection" ->
  yolo_predict m image = inl e ->
  predict open_rgb g request = ([Image_open; model1_predict], error e 500).
Proof.
  intros Hf Hn Ho Hm Ht He.
  assert (Hl : loaded g) by (left; rewrite Hm; discriminate).
  rewrite (predict_guarded Image open_rgb g request file Hl Hf Hn).
  rewrite predict_try_stages, Ho.
  destruct (run_model1_cases Image g image []) as [([H|H] & _)|(m' & Hm' & ->)].
  - congruence.
  - rewrite Ht in H. discriminate.
  - assert (m' = m) by congruence. subst m'. rewrite He. reflexivity.
Qed.

Lemma predict_detection_model_raises_witness :
  predict open_ok g_raising request_leaf =
    ([Image_open; model1_predict], error "CUDA out of memory" 500).
Proof.
  exact (predict_detection_model_raises unit open_ok g_raising request_leaf
           file_leaf tt (mkYOLO (fun _ : unit => inl "CUDA out of memory"))
           "CUDA out of memory"
           eq_refl ltac:(discriminate) eq_refl eq_refl eq_refl eq_refl).
Defined.



(** X6. The class name is looked up before the confidence is tested: when
    one of the pairs of [top5] and [top5conf] has an index outside
    [class_names_2], the answer is a 500 ["list index out of range"],
    whatever the confidences are and whatever the detection model found. *)
Theorem predict_bad_class_index_aborts
        (Image : Type) (open_rgb : list Byte.byte -> result Image)
        (g : Globals Image) (request : Request)
        (file : FileStorage) (image : Image) (m : YOLO Image)
        (t1 : list Event) (dets : list Finding)
        (r0 : Results) (rs : list Results) (p : Probs) :
  files_get (files request) "file" = Some file ->
  filename file <> "" ->
  open_rgb (stream file) = inr image ->
  run_model1 g image [] = (t1, inr dets) ->
  model2 g = Some m ->
  model2_type g = Some "classify" ->
  yolo_predict m image = inr (r0 :: rs) ->
  probs r0 = Some p ->
  Exists (fun q => ~ pair_index_ok q) (combine (top5 p) (top5conf p)) ->
  predict open_rgb g request =
    (Image_open :: t1 ++ [model2_predict], error IndexError_list 500).
Proof.
  intros Hf Hn Ho H1 Hm Ht Hr Hp Hbad.
  assert (Hl : loaded g) by (right; rewrite Hm; discriminate).
  rewrite (predict_guarded Image open_rgb g request file Hl Hf Hn).
  rewrite predict_try_stages, Ho, H1.
  destruct (run_model2_cases Image g image dets) as [([H|H] & _)|(m' & Hm' & ->)].
  - congruence.
  - rewrite Ht in H. discriminate.
  - assert (m' = m) by congruence. subst m'. rewrite Hr.
    unfold classification_pairs. rewrite Hp.
    destruct (classification_loop (combine (top5 p) (top5conf p)) dets)
      as [e|out] eqn:E.
    + apply classification_loop_error in E. subst e. reflexivity.
    + exfalso. apply Exists_exists in Hbad. destruct Hbad as (q & Hq & Hnot).
      assert (Hall : Forall pair_index_ok (combine (top5 p) (top5conf p))).
      { apply (classification_loop_ok_iff _ dets). exists out. exact E. }
      rewrite Forall_forall in Hall. apply Hnot, Hall, Hq.
Qed.

Lemma predict_bad_class_index_aborts_witness :
  predict open_ok g_bad_class request_leaf =
    (Image_open :: [model1_predict] ++ [model2_predict],
     error IndexError_list 500).
Proof.
  refine (predict_bad_class_index_aborts unit open_ok g_bad_class request_leaf
            file_leaf tt (fixed_model results_bad_class)
            [model1_predict] [bud_rot_08]
            {| boxes := None;
               probs := Some {| top5 := [3; 7]; top5conf := [f_0_9; f_0_05] |} |}
            [] {| top5 := [3; 7]; top5conf := [f_0_9; f_0_05] |}
            eq_refl _ eq_refl eq_refl eq_refl eq_refl eq_refl eq_refl _).
  - discriminate.
  - apply Exists_cons_tl. apply Exists_cons_hd.
    unfold pair_index_ok. simpl. lia.
Defined.



(** ** What the loops append *)

(** X8. The detection loop filters nothing: when every box has a class
    that indexes [class_names_1], it appends one finding per box, in the
    order of the boxes, with the confidence of the box whatever it is and
    the name its class index selects. *)
Theorem detection_loop_appends_every_box (boxes1 : list Box) :
  forall all,
    Forall box_index_ok boxes1 ->
    exists added,
      detection_loop boxes1 all = inr (all ++ added) /\
      Forall2 (fun b d =>
                 d_confidence d = conf b /\
                 d_model d = "detection" /\
                 exists i, PyFloat.to_int (cls b) = inr i /\
                           py_getitem class_names_1 i = inr (d_class d))
              boxes1 added.
Proof.
  induction boxes1 as [|b rest IH]; intros all Hok; simpl.
  - exists []. rewrite app_nil_r. split; [reflexivity|constructor].
  - inversion Hok as [|? ? (i & Hi & Hr) Hrest]; subst.
    rewrite Hi.
    destruct (proj2 (py_getitem_ok_iff class_names_1 i) Hr) as [name Hname].
    rewrite Hname.
    destruct (IH (all ++ [ {| d_class := name; d_confidence := conf b;
                              d_model := "detection" |} ]) Hrest)
      as (added & Hloop & Hadded).
    eexists (_ :: added). rewrite Hloop, <- app_assoc. split; [reflexivity|].
    constructor; [|exact Hadded].
    simpl. repeat split. exists i. auto.
Qed.

Lemma detection_loop_appends_every_box_witness :
  exists added,
    detection_loop [ {| conf := f_0_05; cls := f_1 |}; {| conf := f_0_9; cls := f_0 |} ]
                   [healthy_09] = inr ([healthy_09] ++ added) /\
    Forall2 (fun b d =>
               d_confidence d = conf b /\
               d_model d = "detection" /\
               exists i, PyFloat.to_int (cls b) = inr i /\
                         py_getitem class_names_1 i = inr (d_class d))
            [ {| conf := f_0_05; cls := f_1 |}; {| conf := f_0_9; cls := f_0 |} ]
            added.
Proof.
  apply (detection_loop_appends_every_box
           [ {| conf := f_0_05; cls := f_1 |}; {| conf := f_0_9; cls := f_0 |} ]
           [healthy_09]).
  constructor; [|constructor; [|constructor]].
  - exists 1. split; [reflexivity|lia].
  - exists 0. split; [reflexivity|lia].
Defined.

(** X9. When every index of the pairs indexes [class_names_2], the
    classification loop appends exactly the pairs whose confidence is
    above 0.1, in their order, each with its confidence and the name its
    index selects. *)
Theorem classification_loop_keeps_above_floor (pairs : list (Z * float)) :
  forall all,
    Forall pair_index_ok pairs ->
    exists added,
      classification_loop pairs all = inr (all ++ added) /\
      Forall2 (fun q d =>
                 d_confidence d = snd q /\
                 d_model d = "classification" /\
                 py_getitem class_names_2 (fst q) = inr (d_class d))
              (filter (fun q => above_floor (snd q)) pairs) added.
Proof.
  induction pairs as [|[i c] rest IH]; intros all Hok; simpl.
  - exists []. rewrite app_nil_r. split; [reflexivity|constructor].
  - inversion Hok as [|? ? Hr Hrest]; subst.
    destruct (proj2 (py_getitem_ok_iff class_names_2 i) Hr) as [name Hname].
    rewrite Hname. unfold above_floor at 1.
    destruct (PyFloat.gt c PyFloat.lit_0_1).
    + destruct (IH (all ++ [ {| d_class := name; d_confidence := c;
                                d_model := "classification" |} ]) Hrest)
        as (added & Hloop & Hadded).
      eexists (_ :: added). rewrite Hloop, <- app_assoc. split; [reflexivity|].
      constructor; [|exact Hadded]. simpl. auto.
    + destruct (IH all Hrest) as (added & Hloop & Hadded).
      exists added. split; [exact Hloop|exact Hadded].
Qed.

Lemma classification_loop_keeps_above_floor_witness :
  exists added,
    classification_loop [(3, f_0_9); (1, f_0_05); (-1, f_0_8)] [bud_rot_08]
      = inr ([bud_rot_08] ++ added) /\
    Forall2 (fun q d =>
               d_confidence d = snd q /\
               d_model d = "classification" /\
               py_getitem class_names_2 (fst q) = inr (d_class d))
            (filter (fun q => above_floor (snd q))
                    [(3, f_0_9); (1, f_0_05); (-1, f_0_8)]) added.
Proof.
  apply (classification_loop_keeps_above_floor
           [(3, f_0_9); (1, f_0_05); (-1, f_0_8)] [bud_rot_08]).
  repeat constructor; unfold pair_index_ok; simpl; lia.
Defined.

(** ** More on the aggregation *)

Lemma count_diseased_length (l : list Finding) :
  count_diseased l <= Z.of_nat (List.length l).
Proof.
  induction l as [|d l IH]; [reflexivity|].
  cbn [count_diseased List.length]. rewrite Nat2Z.inj_succ.
  destruct (string_dec (d_class d) "healthy"); lia.
Qed.

Lemma non_healthy_idempotent (all : list Finding) :
  non_healthy (non_healthy all) = non_healthy all.
Proof.
  unfold non_healthy. induction all as [|d all IH]; [reflexivity|].
  cbn [filter]. destruct (negb (is_healthy d)) eqn:E; [|exact IH].
  cbn [filter]. rewrite E, IH. reflexivity.
Qed.

(** The prediction and the confidence come from one and the same entry. *)
Lemma aggregate_best_entry (all : list Finding) (r : AggregateResult) :
  aggregate all = inr r ->
  all <> [] ->
  exists d, In d all /\ d_class d = prediction r /\ d_confidence d = confidence r.
Proof.
  unfold aggregate. cbv zeta. intros H Hne.
  destruct (non_healthy all) as [|b l] eqn:E.
  - destruct all as [|c k]; [congruence|].
    simpl py_max in H. injection H as <-. simpl.
    exists (max_from c k). split; [apply max_from_In|]. split; [|reflexivity].
    apply (proj1 (non_healthy_nil (c :: k)) E). apply max_from_In.
  - simpl py_max in H. injection H as <-. simpl.
    exists (max_from b l). split; [|auto].
    assert (Hin : In (max_from b l) (non_healthy all))
      by (rewrite E; apply max_from_In).
    apply non_healthy_In in Hin. tauto.
Qed.

(** X10. The prediction is ["healthy"] exactly when [total_diseases] is 0,
    and [total_diseases] lies between 0 and the number of entries of
    [all_detections]. *)
Theorem healthy_iff_no_disease (all : list Finding) (r : AggregateResult) :
  aggregate all = inr r ->
  (prediction r = "healthy" <-> total_diseases r = 0) /\
  0 <= total_diseases r <= Z.of_nat (List.length (all_detections r)).
Proof.
  intros H. split.
  - revert H. unfold aggregate. cbv zeta.
    destruct (non_healthy all) as [|b l] eqn:E.
    + destruct all as [|c k]; simpl py_max; intros H; injection H as <-;
        simpl; split; reflexivity.
    + simpl py_max. intros H. injection H as <-.
      cbn [prediction total_diseases].
      assert (Hin : In (max_from b l) (non_healthy all))
        by (rewrite E; apply max_from_In).
      apply non_healthy_In in Hin. destruct Hin as [_ Hd].
      split; [intros Hh; exfalso; exact (Hd Hh)|].
      intros Hz. discriminate Hz.
  - destruct (aggregate_inv all r H) as (-> & -> & _).
    split; [apply count_diseased_nonneg|apply count_diseased_length].
Qed.

Lemma healthy_iff_no_disease_witness :
  (prediction result_bud_rot = "healthy" <-> total_diseases result_bud_rot = 0) /\
  0 <= total_diseases result_bud_rot
    <= Z.of_nat (List.length (all_detections result_bud_rot)).
Proof.
  exact (healthy_iff_no_disease [bud_rot_08; healthy_09] result_bud_rot eq_refl).
Defined.

(** X11. ["healthy"] findings never change the verdict when a disease
    finding is present: the aggregation of the list and the aggregation of
    its disease findings alone give the same prediction, confidence and
    [total_diseases]. *)
Theorem aggregate_ignores_healthy (all : list Finding) :
  (exists d, In d all /\ diseased d) ->
  exists r r',
    aggregate all = inr r /\
    aggregate (non_healthy all) = inr r' /\
    prediction r = prediction r' /\
    confidence r = confidence r' /\
    total_diseases r = total_diseases r'.
Proof.
  intros (d & Hd & Hdis).
  unfold aggregate. cbv zeta. rewrite non_healthy_idempotent.
  destruct (non_healthy all) as [|b l] eqn:E.
  - assert (Hin : In d (non_healthy all)) by (apply non_healthy_In; auto).
    rewrite E in Hin. destruct Hin.
  - simpl py_max. eexists. eexists. repeat split.
Qed.

Lemma aggregate_ignores_healthy_witness :
  exists r r',
    aggregate [healthy_095; bud_rot_08; healthy_09] = inr r /\
    aggregate (non_healthy [healthy_095; bud_rot_08; healthy_09]) = inr r' /\
    prediction r = prediction r' /\
    confidence r = confidence r' /\
    total_diseases r = total_diseases r'.
Proof.
  apply (aggregate_ignores_healthy [healthy_095; bud_rot_08; healthy_09]).
  exists bud_rot_08. split; [simpl; auto|discriminate].
Defined.

(** ** Responses that carry a result *)

Lemma predict_result_stages (Image : Type)
      (open_rgb : list Byte.byte -> result Image)
      (g : Globals Image) (request : Request)
      (t : list Event) (response : Response) (r : AggregateResult) :
  predict open_rgb g request = (t, response) ->
  body response = JResult r ->
  exists file image t1 dets t2 all,
    loaded g /\
    files_get (files request) "file" = Some file /\
    filename file <> "" /\
    open_rgb (stream file) = inr image /\
    run_model1 g image [] = (t1, inr dets) /\
    run_model2 g image dets = (t2, inr all) /\
    aggregate all = inr r /\
    t = Image_open :: t1 ++ t2 /\
    response = ok r.
Proof.
  intros H Hbody.
  destruct (predict_cases Image open_rgb g request)
    as [(_ & _ & E)|[(_ & _ & E)|[(_ & file & _ & _ & E)|(Hl & file & Hf & Hn & E)]]];
    rewrite E in H; clear E.
  - injection H as _ <-. discriminate Hbody.
  - injection H as _ <-. discriminate Hbody.
  - injection H as _ <-. discriminate Hbody.
  - rewrite predict_try_stages in H.
    destruct (open_rgb (stream file)) as [e|image] eqn:Ho.
    { injection H as _ <-. discriminate Hbody. }
    destruct (run_model1 g image []) as [t1 [e|dets]] eqn:E1.
    { injection H as _ <-. discriminate Hbody. }
    destruct (run_model2 g image dets) as [t2 [e|all]] eqn:E2.
    { injection H as _ <-. discriminate Hbody. }
    destruct (aggregate all) as [e|r'] eqn:Ea.
    { injection H as _ <-. discriminate Hbody. }
    simpl in H. injection H as <- <-. simpl in Hbody. injection Hbody as ->.
    exists file, image, t1, dets, t2, all. auto 12.
Qed.

(** X12. In a response with a non-empty [all_detections], the prediction
    and the confidence are the class and the confidence of one and the
    same entry of [all_detections]. *)
Theorem response_verdict_is_one_finding
        (Image : Type) (open_rgb : list Byte.byte -> result Image)
        (g : Globals Image) (request : Request)
        (t : list Event) (response : Response) (r : AggregateResult) :
  predict open_rgb g request = (t, response) ->
  body response = JResult r ->
  all_detections r <> [] ->
  exists d,
    In d (all_detections r) /\
    d_class d = prediction r /\
    d_confidence d = confidence r.
Proof.
  intros H Hbody Hne.
  destruct (predict_result_stages Image open_rgb g request t response r H Hbody)
    as (file & image & t1 & dets & t2 & all & _ & _ & _ & _ & _ & _ & Hagg & _).
  destruct (aggregate_inv all r Hagg) as (Hall & _).
  rewrite Hall in *. apply aggregate_best_entry; assumption.
Qed.

Lemma response_verdict_is_one_finding_witness :
  exists d,
    In d (all_detections result_bud_rot) /\
    d_class d = prediction result_bud_rot /\
    d_confidence d = confidence result_bud_rot.
Proof.
  refine (response_verdict_is_one_finding unit open_ok g_both request_leaf
            [Image_open; model1_predict; model2_predict]
            (ok result_bud_rot) result_bud_rot eq_refl eq_refl _).
  discriminate.
Defined.

(** X13. The prediction of a response is always one of the eleven class
    names of the two models. *)
Theorem prediction_is_known_label
        (Image : Type) (open_rgb : list Byte.byte -> result Image)
        (g : Globals Image) (request : Request)
        (t : list Event) (response : Response) (r : AggregateResult) :
  predict open_rgb g request = (t, response) ->
  body response = JResult r ->
  In (prediction r) (class_names_1 ++ class_names_2).
Proof.
  intros H Hbody.
  destruct (predict_result_inv Image open_rgb g request t response r H Hbody)
    as (file & image & dets & clss & t1 & t2 & _ & _ & _ & _ & Hd & Hc & _ & Hagg & _).
  destruct (aggregate_inv _ r Hagg) as (_ & _ & [(_ & d & Hin & <-)|(_ & -> & _)]).
  - apply in_or_app. apply in_app_or in Hin. destruct Hin as [Hin|Hin].
    + left. rewrite Forall_forall in Hd. apply (Hd d Hin).
    + right. rewrite Forall_forall in Hc. apply (Hc d Hin).
  - apply in_or_app. right. simpl. auto.
Qed.

Lemma prediction_is_known_label_witness :
  In (prediction result_bud_rot) (class_names_1 ++ class_names_2).
Proof.
  exact (prediction_is_known_label unit open_ok g_both request_leaf
           [Image_open; model1_predict; model2_predict]
           (ok result_bud_rot) result_bud_rot eq_refl eq_refl).
Defined.

(** ** One model only *)

(** X14. Without the classification model, a response lists detection
    findings only, the classification model is not run, and the prediction
    is ["healthy"] only when nothing was detected, with confidence 0.5. *)
Theorem detection_only_response
        (Image : Type) (open_rgb : list Byte.byte -> result Image)
        (g : Globals Image) (request : Request)
        (t : list Event) (response : Response) (r : AggregateResult) :
  model2 g = None ->
  predict open_rgb g request = (t, response) ->
  body response = JResult r ->
  Forall detection_finding (all_detections r) /\
  ~ In model2_predict t /\
  (prediction r = "healthy" ->
   all_detections r = [] /\ confidence r = PyFloat.lit_0_5).
Proof.
  intros Hm H Hbody.
  destruct (predict_result_stages Image open_rgb g request t response r H Hbody)
    as (file & image & t1 & dets & t2 & all & _ & _ & _ & _ & H1 & H2 & Hagg & -> & _).
  destruct (run_model2_cases Image g image dets) as [(_ & E)|(m & Hm' & _)];
    [|congruence].
  rewrite E in H2. injection H2 as <- <-.
  pose proof (run_model1_trace Image g image []) as Ht1. rewrite H1 in Ht1.
  simpl in Ht1.
  apply run_model1_inv in H1. destruct H1 as (dets' & -> & Hd).
  simpl in Hagg.
  destruct (aggregate_inv dets' r Hagg) as (Hall & _ & Hpred).
  rewrite Hall. split; [exact Hd|]. split.
  - rewrite app_nil_r. destruct Ht1 as [-> | ->]; simpl; intuition discriminate.
  - intros Hh. destruct Hpred as [(_ & d & Hin & Hc)|(-> & _ & Hconf)]; [|auto].
    exfalso. rewrite Forall_forall in Hd. destruct (Hd d Hin) as [_ Hcls].
    apply (class_names_1_diseased _ Hcls). congruence.
Qed.

Lemma detection_only_response_witness :
  Forall detection_finding
    (all_detections {| prediction := "bud rot"; confidence := f_0_8;
                       all_detections := [bud_rot_08]; total_diseases := 1 |}) /\
  ~ In model2_predict [Image_open; model1_predict] /\
  (prediction {| prediction := "bud rot"; confidence := f_0_8;
                 all_detections := [bud_rot_08]; total_diseases := 1 |} = "healthy" ->
   all_detections {| prediction := "bud rot"; confidence := f_0_8;
                     all_detections := [bud_rot_08]; total_diseases := 1 |} = [] /\
   confidence {| prediction := "bud rot"; confidence := f_0_8;
                 all_detections := [bud_rot_08]; total_diseases := 1 |}
     = PyFloat.lit_0_5).
Proof.
  exact (detection_only_response unit open_ok g_detection_only request_leaf
           [Image_open; model1_predict]
           (ok {| prediction := "bud rot"; confidence := f_0_8;
                  all_detections := [bud_rot_08]; total_diseases := 1 |})
           {| prediction := "bud rot"; confidence := f_0_8;
              all_detections := [bud_rot_08]; total_diseases := 1 |}
           eq_refl eq_refl eq_refl).
Defined.

(** X15. Without the detection model, a response lists classification
    findings only, the detection model is not run, and the confidence of a
    response with a non-empty [all_detections] is above 0.1. *)
Theorem classification_only_response
        (Image : Type) (open_rgb : list Byte.byte -> result Image)
        (g : Globals Image) (request : Request)
        (t : list Event) (response : Response) (r : AggregateResult) :
  model1 g = None ->
  predict open_rgb g request = (t, response) ->
  body response = JResult r ->
  Forall classification_finding (all_detections r) /\
  ~ In model1_predict t /\
  (all_detections r <> [] ->
   PyFloat.gt (confidence r) PyFloat.lit_0_1 = true).
Proof.
  intros Hm H Hbody.
  destruct (predict_result_stages Image open_rgb g request t response r H Hbody)
    as (file & image & t1 & dets & t2 & all & _ & _ & _ & _ & H1 & H2 & Hagg & -> & _).
  destruct (run_model1_cases Image g image []) as [(_ & E)|(m & Hm' & _)];
    [|congruence].
  rewrite E in H1. injection H1 as <- <-.
  pose proof (run_model2_trace Image g image []) as Ht2. rewrite H2 in Ht2.
  simpl in Ht2.
  apply run_model2_inv in H2. destruct H2 as (clss & -> & Hc & _).
  simpl in Hagg.
  destruct (aggregate_inv clss r Hagg) as (Hall & _).
  rewrite Hall. split; [exact Hc|]. split.
  - destruct Ht2 as [-> | ->]; simpl; intuition discriminate.
  - intros Hne.
    destruct (aggregate_best_entry clss r Hagg Hne) as (d & Hin & _ & <-).
    rewrite Forall_forall in Hc. apply (Hc d Hin).
Qed.

Lemma classification_only_response_witness :
  Forall classification_finding
    (all_detections {| prediction := "healthy"; confidence := f_0_9;
                       all_detections := [healthy_09]; total_diseases := 0 |}) /\
  ~ In model1_predict [Image_open; model2_predict] /\
  (all_detections {| prediction := "healthy"; confidence := f_0_9;
                     all_detections := [healthy_09]; total_diseases := 0 |} <> [] ->
   PyFloat.gt (confidence {| prediction := "healthy"; confidence := f_0_9;
                             all_detections := [healthy_09];
                             total_diseases := 0 |})
              PyFloat.lit_0_1 = true).
Proof.
  exact (classification_only_response unit open_ok g_classification_only
           request_leaf [Image_open; model2_predict]
           (ok {| prediction := "healthy"; confidence := f_0_9;
                  all_detections := [healthy_09]; total_diseases := 0 |})
           {| prediction := "healthy"; confidence := f_0_9;
              all_detections := [healthy_09]; total_diseases := 0 |}
           eq_refl eq_refl eq_refl).
Defined.

(** ** Loading the models *)

Lemma load_models_run_model1 (Image : Type) (y1 y2 : result (YOLO Image))
      (image : Image) (all : list Finding) :
  fst (run_model1 (load_models y1 y2) image all) =
    match y1 with inr _ => [model1_predict] | inl _ => [] end.
Proof.
  destruct y1 as [e|m]; unfold run_model1; simpl; [reflexivity|].
  unfold bind, call, lift. destruct (yolo_predict m image); reflexivity.
Qed.

Lemma load_models_run_model2 (Image : Type) (y1 y2 : result (YOLO Image))
      (image : Image) (all : list Finding) :
  fst (run_model2 (load_models y1 y2) image all) =
    match y2 with inr _ => [model2_predict] | inl _ => [] end.
Proof.
  destruct y2 as [e|m]; unfold run_model2; simpl; [reflexivity|].
  unfold bind, call, lift. destruct (yolo_predict m image) as [e|rs]; [reflexivity|].
  destruct (classification_pairs rs); reflexivity.
Qed.

Lemma load_models_loaded (Image : Type) (y1 y2 : result (YOLO Image)) :
  loaded (load_models y1 y2) <-> (exists m, y1 = inr m) \/ (exists m, y2 = inr m).
Proof.
  unfold loaded. destruct y1 as [e1|m1], y2 as [e2|m2]; simpl; split;
    intros [H|H]; try congruence;
    try (destruct H as [m H]; discriminate);
    try (left; eexists; reflexivity); try (right; eexists; reflexivity);
    try (left; discriminate); try (right; discriminate).
Qed.

(** X16. After the two loading blocks, a request with a decodable upload
    reaches the decoding exactly when at least one model was loaded; the
    detection model is run exactly when it was loaded, and the
    classification model is run only when it was loaded. *)
Theorem load_models_degrades
        (Image : Type) (open_rgb : list Byte.byte -> result Image)
        (y1 y2 : result (YOLO Image)) (request : Request)
        (file : FileStorage) (image : Image) :
  files_get (files request) "file" = Some file ->
  filename file <> "" ->
  open_rgb (stream file) = inr image ->
  ((exists m, y1 = inr m) \/ (exists m, y2 = inr m) <->
   hd_error (fst (predict open_rgb (load_models y1 y2) request)) = Some Image_open) /\
  (In model1_predict (fst (predict open_rgb (load_models y1 y2) request)) <->
   exists m, y1 = inr m) /\
  (In model2_predict (fst (predict open_rgb (load_models y1 y2) request)) ->
   exists m, y2 = inr m).
Proof.
  intros Hf Hn Ho.
  destruct (predict_cases Image open_rgb (load_models y1 y2) request)
    as [(H1 & H2 & E)|[(_ & Hf' & _)|[(_ & file' & Hf' & Hn' & _)|(Hl & file' & Hf' & _ & E)]]].
  - rewrite E. simpl.
    assert (N1 : ~ exists m, y1 = inr m).
    { intros [m ->]. discriminate H1. }
    assert (N2 : ~ exists m, y2 = inr m).
    { intros [m ->]. discriminate H2. }
    repeat split; intros; try tauto; try discriminate.
  - congruence.
  - assert (file' = file) by congruence. subst file'. contradiction.
  - assert (file' = file) by congruence. subst file'.
    rewrite E, predict_try_stages, Ho.
    pose proof (load_models_run_model1 Image y1 y2 image []) as T1.
    destruct (run_model1 (load_models y1 y2) image []) as [t1 [e|dets]];
      simpl in T1; subst t1.
    + apply load_models_loaded in Hl.
      destruct y1 as [e1|m1]; simpl; repeat split; intros;
        try assumption; try reflexivity; try tauto; try discriminate;
        try (eexists; reflexivity);
        repeat match goal with H : _ \/ _ |- _ => destruct H end;
        try discriminate; try contradiction;
        try match goal with H : exists _, inl _ = inr _ |- _ =>
              destruct H; discriminate end; auto.
    + pose proof (load_models_run_model2 Image y1 y2 image dets) as T2.
      apply load_models_loaded in Hl.
      destruct (run_model2 (load_models y1 y2) image dets) as [t2 [e|all]];
        simpl in T2; subst t2;
        [|destruct (aggregate all)];
        destruct y1 as [e1|m1], y2 as [e2|m2]; simpl; repeat split; intros;
        try assumption; try reflexivity; try tauto; try discriminate;
        try (eexists; reflexivity);
        repeat match goal with H : _ \/ _ |- _ => destruct H end;
        try discriminate; try contradiction;
        try match goal with H : exists _, inl _ = inr _ |- _ =>
              destruct H; discriminate end; auto.
Qed.

Lemma load_models_degrades_witness :
  ((exists m, y_missing = inr m) \/ (exists m, y_classifier = inr m) <->
   hd_error (fst (predict open_ok (load_models y_missing y_classifier)
                          request_leaf)) = Some Image_open) /\
  (In model1_predict (fst (predict open_ok (load_models y_missing y_classifier)
                                   request_leaf)) <->
   exists m, y_missing = inr m) /\
  (In model2_predict (fst (predict open_ok (load_models y_missing y_classifier)
                                   request_leaf)) ->
   exists m, y_classifier = inr m).
Proof.
  refine (load_models_degrades unit open_ok y_missing y_classifier
            request_leaf file_leaf tt eq_refl _ eq_refl).
  discriminate.
Defined.

(** ** What the answer depends on *)



Lemma count_diseased_Permutation (l l' : list Finding) :
  Permutation l l' -> count_diseased l = count_diseased l'.
Proof.
  induction 1 as [|d l l' _ IH|d d' l|l l' l'' _ IH1 _ IH2].
  - reflexivity.
  - cbn [count_diseased]. rewrite IH. reflexivity.
  - cbn [count_diseased].
    destruct (string_dec (d_class d) "healthy"),
             (string_dec (d_class d') "healthy"); reflexivity.
  - congruence.
Qed.

Lemma candidates_In_Permutation (l l' : list Finding) (d : Finding) :
  Permutation l l' -> In d (candidates l) -> In d (candidates l').
Proof.
  intros Hp. unfold candidates.
  assert (Hnh : forall x, In x (non_healthy l) -> In x (non_healthy l')).
  { intros x Hx. apply non_healthy_In in Hx. apply non_healthy_In.
    split; [eapply Permutation_in; [exact Hp|tauto]|tauto]. }
  assert (Hnh' : forall x, In x (non_healthy l') -> In x (non_healthy l)).
  { intros x Hx. apply non_healthy_In in Hx. apply non_healthy_In.
    split; [eapply Permutation_in; [apply Permutation_sym; exact Hp|tauto]|tauto]. }
  destruct (non_healthy l) as [|b k] eqn:E;
    destruct (non_healthy l') as [|b' k'] eqn:E'.
  - intros Hd. eapply Permutation_in; [exact Hp|exact Hd].
  - exfalso. apply (Hnh' b'). left. reflexivity.
  - exfalso. apply (Hnh b). left. reflexivity.
  - intros Hd. apply Hnh. exact Hd.
Qed.

(** The confidence of the result is that of a candidate that no candidate
    exceeds. *)
Lemma aggregate_confidence_max (all : list Finding) (r : AggregateResult) :
  no_nan all ->
  all <> [] ->
  aggregate all = inr r ->
  exists best,
    In best (candidates all) /\
    confidence r = d_confidence best /\
    (forall d, In d (candidates all) -> at_most best d).
Proof.
  intros Hnan Hne Hagg. unfold candidates.
  destruct (non_healthy all) as [|b l] eqn:E.
  - destruct (aggregate_healthy all Hnan Hne E) as (best & Hin & Hmax & Heq).
    rewrite Heq in Hagg. injection Hagg as <-. exists best. auto.
  - destruct (aggregate_diseased all)
      as (pre & best & post & Hall & Hb & Hpre & Hpost & Heq).
    + apply no_nan_non_healthy, Hnan.
    + rewrite E. discriminate.
    + rewrite Heq in Hagg. injection Hagg as <-.
      assert (Hin : In best all).
      { rewrite Hall. apply in_or_app. right. left. reflexivity. }
      exists best. rewrite <- E. split; [apply non_healthy_In; auto|].
      split; [reflexivity|].
      intros d Hd. apply non_healthy_In in Hd. destruct Hd as [Hd Hdis].
      rewrite Hall in Hd. apply in_app_or in Hd. destruct Hd as [Hd|[Hd|Hd]].
      * apply below_at_most, Hpre; assumption.
      * subst d. apply (no_nan_at_most_refl all); assumption.
      * apply Hpost; assumption.
Qed.

(** X18. The order of the findings matters for ties only: two lists with
    the same findings in another order (and no NaN) get confidences that
    compare equal and the same [total_diseases]. *)
Theorem aggregate_order_breaks_ties_only
        (all all' : list Finding) (r r' : AggregateResult) :
  Permutation all all' ->
  no_nan all ->
  aggregate all = inr r ->
  aggregate all' = inr r' ->
  PyFloat.le (confidence r) (confidence r') = true /\
  PyFloat.le (confidence r') (confidence r) = true /\
  total_diseases r = total_diseases r'.
Proof.
  intros Hp Hnan Hr Hr'.
  assert (Hnan' : no_nan all').
  { unfold no_nan in *. eapply Permutation_Forall; [exact Hp|exact Hnan]. }
  destruct (aggregate_inv all r Hr) as (_ & Ht & _).
  destruct (aggregate_inv all' r' Hr') as (_ & Ht' & _).
  rewrite Ht, Ht', (count_diseased_Permutation all all' Hp).
  destruct all as [|c k].
  - apply Permutation_nil in Hp. subst all'.
    simpl in Hr, Hr'. injection Hr as <-. injection Hr' as <-.
    repeat split; reflexivity.
  - assert (Hne : c :: k <> []) by discriminate.
    assert (Hne' : all' <> []).
    { intros ->. apply Permutation_sym, Permutation_nil in Hp. discriminate. }
    destruct (aggregate_confidence_max _ r Hnan Hne Hr) as (b & Hb & -> & Hmax).
    destruct (aggregate_confidence_max _ r' Hnan' Hne' Hr') as (b' & Hb' & -> & Hmax').
    split; [|split; [|reflexivity]].
    + apply Hmax'. eapply candidates_In_Permutation; [exact Hp|exact Hb].
    + apply Hmax. eapply candidates_In_Permutation;
        [apply Permutation_sym; exact Hp|exact Hb'].
Qed.

Lemma aggregate_order_breaks_ties_only_witness :
  PyFloat.le (confidence {| prediction := "leaf rot"; confidence := f_0_9;
                            all_detections := [leaf_rot_09; drying_09];
                            total_diseases := 2 |})
             (confidence {| prediction := "drying"; confidence := f_0_9;
                            all_detections := [drying_09; leaf_rot_09];
                            total_diseases := 2 |}) = true /\
  PyFloat.le (confidence {| prediction := "drying"; confidence := f_0_9;
                            all_detections := [drying_09; leaf_rot_09];
                            total_diseases := 2 |})
             (confidence {| prediction := "leaf rot"; confidence := f_0_9;
                            all_detections := [leaf_rot_09; drying_09];
                            total_diseases := 2 |}) = true /\
  total_diseases {| prediction := "leaf rot"; confidence := f_0_9;
                    all_detections := [leaf_rot_09; drying_09];
                    total_diseases := 2 |} =
  total_diseases {| prediction := "drying"; confidence := f_0_9;
                    all_detections := [drying_09; leaf_rot_09];
                    total_diseases := 2 |}.
Proof.
  refine (aggregate_order_breaks_ties_only
            [leaf_rot_09; drying_09] [drying_09; leaf_rot_09]
            {| prediction := "leaf rot"; confidence := f_0_9;
               all_detections := [leaf_rot_09; drying_09];
               total_diseases := 2 |}
            {| prediction := "drying"; confidence := f_0_9;
               all_detections := [drying_09; leaf_rot_09];
               total_diseases := 2 |}
            _ _ eq_refl eq_refl).
  - apply perm_swap.
  - repeat constructor.
Defined.
